(** * sse-mcp: the chat client's query loop and the location tool server

    A shallow embedding of [client.py] ([MCPClient._invoke_bedrock_claude],
    [MCPClient.process_query], [MCPClient.__init__]) and of
    [location_manager.py] ([make_location_request], [format_location] and
    the two search tools), with the properties the specification states
    about them.  The tool [get_location_by_id] is left out: its last line,
    line 83 of the source, reads [retrurn data], which is no Python
    statement.

    Remote collaborators are oracles that return either a raised exception
    or a value.  For the client (the MCP session, the Bedrock runtime) an
    oracle is a function of the history of remote calls made so far and of
    the call's arguments, and every remote call is recorded in a trace,
    newest event first.  For the server the HTTP client is a function of the
    request that tells what creating the client, the request and closing
    the client do.

    Conventions of the embedding:
    - a Python [str] is a [string] of bytes;
    - a parsed JSON document is a [json] value; numbers are integers (floats
      are left out of the embedding);
    - an exception is a [ClientError], another subclass of [Exception], or
      an exception that derives from [BaseException] only (an
      [asyncio.CancelledError], a [KeyboardInterrupt], a [SystemExit]), which
      [except Exception] does not handle. *)

From Stdlib Require Import String Ascii List ZArith Lia Bool DecimalString.
Import ListNotations.
Open Scope string_scope.
Set Warnings "-register-all".

(* ================================================================== *)
(** ** Python strings *)

Module Py.

(** The newline and double-quote characters. *)
Definition nl : string := String (ascii_of_nat 10) "".
Definition dq : string := String (ascii_of_nat 34) "".

(** [sep.join(parts)]. *)
Definition join (sep : string) (parts : list string) : string :=
  String.concat sep parts.

(** [str(n)] for a non-negative and for a signed integer. *)
Definition str_of_nat (n : nat) : string :=
  NilZero.string_of_uint (Nat.to_uint n).
Definition str_of_Z (z : Z) : string :=
  NilZero.string_of_int (Z.to_int z).

(** [str(x)] inside an f-string for an [Optional[str]]: [None] prints as
    the word None. *)
Definition fmt_opt (x : option string) : string :=
  match x with Some s => s | None => "None" end.

(** [d.get(key, default)] once the lookup is done. *)
Definition get_or {A} (default : A) (x : option A) : A :=
  match x with Some a => a | None => default end.

Definition eq_opt_string (x : option string) (s : string) : bool :=
  match x with Some t => String.eqb t s | None => false end.

End Py.

(* ================================================================== *)
(** ** JSON values and [json.dumps(_, ensure_ascii=False)] *)

Module Json.

Inductive json : Type :=
| JNull
| JBool (b : bool)
| JInt (n : Z)
| JStr (s : string)
| JList (items : list json)
| JDict (items : list (string * json)).

Definition hex_digit (n : nat) : string :=
  match n with
  | 0 => "0" | 1 => "1" | 2 => "2" | 3 => "3" | 4 => "4" | 5 => "5"
  | 6 => "6" | 7 => "7" | 8 => "8" | 9 => "9" | 10 => "a" | 11 => "b"
  | 12 => "c" | 13 => "d" | 14 => "e" | _ => "f"
  end.

(** The encoder's table [ESCAPE_DCT]: quote, backslash, the five short
    escapes, and [\u00xx] for the other control characters.  With
    [ensure_ascii=False] every other byte is copied. *)
Definition escape_char (c : ascii) : string :=
  let n := nat_of_ascii c in
  if Nat.eqb n 34 then "\" ++ Py.dq
  else if Nat.eqb n 92 then "\\"
  else if Nat.eqb n 10 then "\n"
  else if Nat.eqb n 13 then "\r"
  else if Nat.eqb n 9 then "\t"
  else if Nat.eqb n 8 then "\b"
  else if Nat.eqb n 12 then "\f"
  else if Nat.ltb n 32 then "\u00" ++ hex_digit (n / 16) ++ hex_digit (n mod 16)
  else String c "".

Fixpoint escape (s : string) : string :=
  match s with
  | EmptyString => ""
  | String c rest => escape_char c ++ escape rest
  end.

Definition quoted (s : string) : string := Py.dq ++ escape s ++ Py.dq.

(** [json.dumps] with the default separators [", "] and [": "]. *)
Fixpoint dumps (j : json) : string :=
  match j with
  | JNull => "null"
  | JBool true => "true"
  | JBool false => "false"
  | JInt n => Py.str_of_Z n
  | JStr s => quoted s
  | JList items => "[" ++ Py.join ", " (map dumps items) ++ "]"
  | JDict items =>
      "{" ++ Py.join ", "
               (map (fun kv => match kv with
                               | (k, v) => quoted k ++ ": " ++ dumps v
                               end) items)
          ++ "}"
  end.

(** Python truthiness of a decoded document ([if not data]). *)
Definition truthy (j : json) : bool :=
  match j with
  | JNull => false
  | JBool b => b
  | JInt n => negb (Z.eqb n 0)
  | JStr s => negb (String.eqb s "")
  | JList items => match items with [] => false | _ => true end
  | JDict items => match items with [] => false | _ => true end
  end.

(** [d.get(key)] on a dict (keys of a decoded object are distinct). *)
Fixpoint lookup (key : string) (items : list (string * json)) : option json :=
  match items with
  | [] => None
  | (k, v) :: rest => if String.eqb k key then Some v else lookup key rest
  end.

End Json.
Import Json.

(* ================================================================== *)
(** ** client.py: data *)

Module Client.

(** Exceptions, by what the handlers of [client.py] tell apart: botocore's
    [ClientError], whose [response] may carry ['Error']['Code'] and
    ['Error']['Message']; every other subclass of [Exception]; and the
    exceptions that derive from [BaseException] only, which no
    [except Exception] clause handles.  [str_e] is [str(e)]. *)
Inductive exn : Type :=
| ClientError (code message : option string) (str_e : string)
| Exception (str_e : string)
| BaseException (str_e : string).

Definition str (e : exn) : string :=
  match e with
  | ClientError _ _ s => s
  | Exception s => s
  | BaseException s => s
  end.

(** [isinstance(e, Exception)]. *)
Definition is_Exception (e : exn) : bool :=
  match e with
  | ClientError _ _ _ => true
  | Exception _ => true
  | BaseException _ => false
  end.

(** A content block of a model reply, a dict read with [.get]: every key
    may be absent. *)
Record content_block : Type := {
  cb_type : option string;
  cb_text : option string;
  cb_name : option string;
  cb_input : option json;
  cb_id : option string
}.

(** The decoded reply body; [content] may be absent. *)
Record bedrock_response : Type := {
  body_content : option (list content_block)
}.

Inductive role : Type := user | assistant.

(** The blocks [process_query] itself puts in the transcript. *)
Inductive message_block : Type :=
| tool_use (name : option string) (input : json) (id : string)
| tool_result (result_content : string) (tool_use_id : string).

Inductive message_content : Type :=
| plain (text : string)
| blocks (bs : list message_block).

Record message : Type := { msg_role : role; msg_content : message_content }.

(** A tool as [list_tools] reports it, and as the catalog passes it on. *)
Record tool : Type := {
  name : string;
  description : option string;
  inputSchema : json
}.
Record tool_spec : Type := {
  ts_name : string;
  ts_description : option string;
  ts_input_schema : json
}.

Record request_body : Type := {
  anthropic_version : string;
  max_tokens : Z;
  messages : list message;
  tools : option (list tool_spec)
}.

(** Remote calls, as recorded in the trace. *)
Inductive event : Type :=
| ev_list_tools
| ev_invoke_model (modelId : string) (body : request_body)
| ev_call_tool (tool_name : option string) (tool_args : json).

Definition history : Type := list event.

(** The session: [list_tools()] and [call_tool(name, args)]; the latter
    answers with [str(result.content)]. *)
Record ClientSession : Type := {
  list_tools : history -> exn + list tool;
  call_tool : history -> option string -> json -> exn + string
}.

(** The Bedrock runtime client: [invoke_model] followed by reading and
    decoding the body. *)
Record BedrockClient : Type := {
  invoke_model : history -> string -> request_body -> exn + bedrock_response
}.

Record MCPClient : Type := {
  session : option ClientSession;
  bedrock_client : BedrockClient;
  claude_model_id : string;
  bedrock_available : bool
}.

(** The state a query runs in: the client object, the remote calls made so
    far (newest first) and what was printed (oldest first). *)
Record world : Type := {
  self : MCPClient;
  trace : history;
  stdout : list string
}.

(* ------------------------------------------------------------------ *)
(** ** A state and exception monad *)

Inductive outcome (A : Type) : Type :=
| Return (a : A)
| Raise (e : exn).
Arguments Return {A} a.
Arguments Raise {A} e.

Definition M (A : Type) : Type := world -> outcome A * world.

Definition ret {A} (a : A) : M A := fun w => (Return a, w).
Definition raise {A} (e : exn) : M A := fun w => (Raise e, w).
Definition bind {A B} (m : M A) (f : A -> M B) : M B :=
  fun w =>
    match m w with
    | (Return a, w') => f a w'
    | (Raise e, w') => (Raise e, w')
    end.

(** [try: body / except Exception as e: handler(e)]: an exception that
    is no [Exception] passes through. *)
Definition try_except {A} (body : M A) (handler : exn -> M A) : M A :=
  fun w =>
    match body w with
    | (Return a, w') => (Return a, w')
    | (Raise e, w') =>
        if is_Exception e then handler e w' else (Raise e, w')
    end.

(** [try: body / except ClientError as e: handler(e)]: any other
    exception passes through. *)
Definition try_except_ClientError {A} (body : M A)
    (handler : option string -> option string -> string -> M A) : M A :=
  fun w =>
    match body w with
    | (Return a, w') => (Return a, w')
    | (Raise (ClientError code message str_e), w') =>
        handler code message str_e w'
    | (Raise e, w') => (Raise e, w')
    end.

Notation "x <- m ;; k" := (bind m (fun x => k))
  (at level 61, m at next level, right associativity).
Notation "m ;; k" := (bind m (fun _ => k))
  (at level 61, right associativity).

Definition get_self : M MCPClient := fun w => (Return (self w), w).

Definition print (line : string) : M unit :=
  fun w => (Return tt,
            {| self := self w; trace := trace w;
               stdout := (stdout w ++ [line])%list |}).

Definition record (ev : event) : M unit :=
  fun w => (Return tt,
            {| self := self w; trace := ev :: trace w; stdout := stdout w |}).

Definition get_trace : M history := fun w => (Return (trace w), w).

Definition lift {A} (r : exn + A) : M A :=
  match r with
  | inl e => raise e
  | inr a => ret a
  end.

(** [self.bedrock_available = False]. *)
Definition set_bedrock_unavailable : M unit :=
  fun w => (Return tt,
            {| self := {| session := session (self w);
                          bedrock_client := bedrock_client (self w);
                          claude_model_id := claude_model_id (self w);
                          bedrock_available := false |};
               trace := trace w; stdout := stdout w |}).

(** The three remote calls: the oracle is asked with the history before the
    call, and the call is recorded whatever its outcome. *)
Definition session_list_tools (s : ClientSession) : M (list tool) :=
  h <- get_trace ;;
  record ev_list_tools ;;
  lift (list_tools s h).

Definition session_call_tool (s : ClientSession)
    (tool_name : option string) (tool_args : json) : M string :=
  h <- get_trace ;;
  record (ev_call_tool tool_name tool_args) ;;
  lift (call_tool s h tool_name tool_args).

Definition client_invoke_model (modelId : string) (body : request_body)
    : M bedrock_response :=
  c <- get_self ;;
  h <- get_trace ;;
  record (ev_invoke_model modelId body) ;;
  lift (invoke_model (bedrock_client c) h modelId body).

(* ------------------------------------------------------------------ *)
(** ** [MCPClient._invoke_bedrock_claude] *)

Definition auth_error_codes : list string :=
  [ "UnrecognizedClientException"; "InvalidSignatureException";
    "ExpiredTokenException"; "AccessDeniedException" ].

Definition bedrock_unavailable_error : exn :=
  Exception "AWS Bedrock authentication failed. Please check your credentials.".

(** What the [except ClientError] clause raises in place of the error it
    caught; any other exception passes through unchanged. *)
Definition bedrock_error (e : exn) : exn :=
  match e with
  | ClientError code message str_e =>
      Exception ("AWS Bedrock error (" ++ Py.get_or "Unknown" code ++ "): "
                 ++ Py.get_or str_e message)
  | Exception _ => e
  | BaseException _ => e
  end.

(** The request body: the [tools] key is set only for a non-empty catalog. *)
Definition request_body_of (messages : list message) (tools : list tool_spec)
    : request_body :=
  {| anthropic_version := "bedrock-2023-05-31";
     max_tokens := 4096;
     messages := messages;
     tools := match tools with [] => None | _ :: _ => Some tools end |}.

Definition _invoke_bedrock_claude (messages : list message)
    (tools : list tool_spec) : M bedrock_response :=
  c <- get_self ;;
  if negb (bedrock_available c) then raise bedrock_unavailable_error
  else
    let request_body := request_body_of messages tools in
    try_except_ClientError
      (client_invoke_model (claude_model_id c) request_body)
      (fun code message str_e =>
         let error_code := Py.get_or "Unknown" code in
         let error_message := Py.get_or str_e message in
         (if existsb (String.eqb error_code) auth_error_codes then
            set_bedrock_unavailable ;;
            print ("AWS authentication error: " ++ error_message) ;;
            print "Please check your AWS credentials and permissions."
          else ret tt) ;;
         raise (bedrock_error (ClientError code message str_e))).

(* ------------------------------------------------------------------ *)
(** ** [MCPClient.process_query] *)

(** The local variables the loop over the reply's blocks reads and
    rebinds. *)
Record locals : Type := {
  l_messages : list message;
  l_bedrock_response : bedrock_response;
  l_tool_results : list string;
  l_final_text : list string
}.

(** The inner loop: the text blocks of a follow-up reply, in order. *)
Fixpoint follow_up_text (conts : list content_block) : list string :=
  match conts with
  | [] => []
  | cont :: rest =>
      if Py.eq_opt_string (cb_type cont) "text"
      then Py.get_or "" (cb_text cont) :: follow_up_text rest
      else follow_up_text rest
  end.

Definition tool_id_of (content : content_block) (tool_results : list string)
    : string :=
  Py.get_or ("tool_" ++ Py.str_of_nat (length tool_results)) (cb_id content).

Definition tool_call_note (tool_name : option string) (tool_args : json)
    : string :=
  "[Calling tool " ++ Py.fmt_opt tool_name ++ " with args "
    ++ Json.dumps tool_args ++ "]".

Definition tool_turns (tool_name : option string) (tool_args : json)
    (tool_id result_content : string) : list message :=
  [ {| msg_role := assistant;
       msg_content := blocks [tool_use tool_name tool_args tool_id] |};
    {| msg_role := user;
       msg_content := blocks [tool_result result_content tool_id] |} ].

(** One pass of the body of [for content in bedrock_response.get(...)]. *)
Definition process_block (s : ClientSession) (available_tools : list tool_spec)
    (content : content_block) (l : locals) : M locals :=
  if Py.eq_opt_string (cb_type content) "text" then
    ret {| l_messages := l_messages l;
           l_bedrock_response := l_bedrock_response l;
           l_tool_results := l_tool_results l;
           l_final_text :=
             (l_final_text l ++ [Py.get_or "" (cb_text content)])%list |}
  else if Py.eq_opt_string (cb_type content) "tool_use" then
    let tool_name := cb_name content in
    let tool_args := Py.get_or (JDict []) (cb_input content) in
    let tool_id := tool_id_of content (l_tool_results l) in
    print ("Calling tool: " ++ Py.fmt_opt tool_name) ;;
    result_content <- session_call_tool s tool_name tool_args ;;
    let final_text :=
      (l_final_text l ++ [tool_call_note tool_name tool_args])%list in
    let messages :=
      (l_messages l
         ++ tool_turns tool_name tool_args tool_id result_content)%list in
    print "Getting Claude's response to the tool result..." ;;
    bedrock_response <- _invoke_bedrock_claude messages available_tools ;;
    ret {| l_messages := messages;
           l_bedrock_response := bedrock_response;
           l_tool_results := l_tool_results l;
           l_final_text :=
             (final_text
                ++ follow_up_text
                     (Py.get_or [] (body_content bedrock_response)))%list |}
  else ret l.

(** The [for] loop: it walks the block list it was started on, whatever
    [bedrock_response] is rebound to on the way. *)
Fixpoint process_blocks (s : ClientSession) (available_tools : list tool_spec)
    (contents : list content_block) (l : locals) : M locals :=
  match contents with
  | [] => ret l
  | content :: rest =>
      l' <- process_block s available_tools content l ;;
      process_blocks s available_tools rest l'
  end.

Definition tool_spec_of (t : tool) : tool_spec :=
  {| ts_name := name t;
     ts_description := description t;
     ts_input_schema := inputSchema t |}.

Definition not_connected : string :=
  "Not connected to server. Please connect first.".

Section ProcessQuery.

(** [traceback.format_exc()] for the exception being handled. *)
Variable format_exc : exn -> string.

Definition error_text (e : exn) : string :=
  "Error processing query: " ++ str e ++ Py.nl ++ Py.nl ++ format_exc e.

Definition initial_messages (query : string) : list message :=
  [ {| msg_role := user; msg_content := plain query |} ].

(** The body of the [try] block. *)
Definition process_query_body (s : ClientSession) (query : string) : M string :=
  let messages := initial_messages query in
  response <- session_list_tools s ;;
  let available_tools := map tool_spec_of response in
  print "Sending request to Claude via AWS Bedrock..." ;;
  bedrock_response <- _invoke_bedrock_claude messages available_tools ;;
  l <- process_blocks s available_tools
         (Py.get_or [] (body_content bedrock_response))
         {| l_messages := messages;
            l_bedrock_response := bedrock_response;
            l_tool_results := [];
            l_final_text := [] |} ;;
  ret (Py.join Py.nl (l_final_text l)).

Definition process_query (query : string) : M string :=
  c <- get_self ;;
  match session c with
  | None => ret not_connected
  | Some s =>
      try_except (process_query_body s query)
                 (fun e => ret (error_text e))
  end.

End ProcessQuery.

(* ------------------------------------------------------------------ *)
(** ** [MCPClient.__init__] *)

(** The four environment variables the constructor reads. *)
Record environ : Type := {
  AWS_ACCESS_KEY_ID : option string;
  AWS_SECRET_ACCESS_KEY : option string;
  AWS_SESSION_TOKEN : option string;
  AWS_REGION : option string
}.

(** The keyword arguments of [boto3.client]: the two keys are passed as
    read (possibly [None]); the [aws_session_token] key is present only when
    [kw_session_token] is [Some]. *)
Record client_kwargs : Type := {
  kw_service_name : string;
  kw_region_name : string;
  kw_access_key_id : option string;
  kw_secret_access_key : option string;
  kw_session_token : option string
}.

(** [not x] for an [Optional[str]]. *)
Definition unset (x : option string) : bool :=
  match x with
  | None => true
  | Some v => String.eqb v ""
  end.

Definition credentials_warning : list string :=
  [ "Warning: AWS credentials not found in environment variables.";
    "Please set AWS_ACCESS_KEY_ID and AWS_SECRET_ACCESS_KEY." ].

Definition authentication_help (code message : option string) (str_e : string)
    : list string :=
  [ "AWS Bedrock authentication error (" ++ Py.get_or "Unknown" code ++ "): "
      ++ Py.get_or str_e message;
    Py.nl ++ "Possible solutions:";
    "1. Check that your AWS credentials are correct and not expired";
    "2. Make sure the IAM role/user has access to Bedrock";
    "3. If using temporary credentials, ensure AWS_SESSION_TOKEN is set correctly";
    "4. Verify you have access to the Claude 3.7 Sonnet model in your AWS region" ].

Definition kwargs_of (env : environ) : client_kwargs :=
  {| kw_service_name := "bedrock-runtime";
     kw_region_name := Py.get_or "us-east-1" (AWS_REGION env);
     kw_access_key_id := AWS_ACCESS_KEY_ID env;
     kw_secret_access_key := AWS_SECRET_ACCESS_KEY env;
     kw_session_token :=
       if unset (AWS_SESSION_TOKEN env) then None else AWS_SESSION_TOKEN env |}.

Definition new_client (bc : BedrockClient) : MCPClient :=
  {| session := None;
     bedrock_client := bc;
     claude_model_id := "us.anthropic.claude-3-7-sonnet-20250219-v1:0";
     bedrock_available := true |}.

(** The constructor: what it prints, and the client or the exception that
    leaves it.  [boto3_client k kwargs] is the [k]-th call of
    [boto3.client]: the [except ClientError] clause calls it a second time,
    outside any [try]. *)
Definition __init__ (env : environ)
    (boto3_client : nat -> client_kwargs -> exn + BedrockClient)
    : list string * (exn + MCPClient) :=
  let warning :=
    if (unset (AWS_ACCESS_KEY_ID env) || unset (AWS_SECRET_ACCESS_KEY env))%bool
    then credentials_warning else [] in
  let client_kwargs := kwargs_of env in
  match boto3_client 0 client_kwargs with
  | inr bc => (warning, inr (new_client bc))
  | inl (ClientError code message str_e) =>
      let printed :=
        (warning ++ authentication_help code message str_e)%list in
      match boto3_client 1 client_kwargs with
      | inr bc => (printed, inr (new_client bc))
      | inl e => (printed, inl e)
      end
  | inl e => (warning, inl e)
  end.

(* ------------------------------------------------------------------ *)
(** ** Observations on a run *)

Definition is_invoke_model (ev : event) : bool :=
  match ev with ev_invoke_model _ _ => true | _ => false end.
Definition is_call_tool (ev : event) : bool :=
  match ev with ev_call_tool _ _ => true | _ => false end.

(** How many Model Invoker calls, and how many [callTool] calls, a trace
    holds. *)
Definition model_calls (h : history) : nat := length (filter is_invoke_model h).
Definition tool_calls (h : history) : nat := length (filter is_call_tool h).

Definition is_tool_use (b : content_block) : bool :=
  Py.eq_opt_string (cb_type b) "tool_use".
Definition is_text (b : content_block) : bool :=
  Py.eq_opt_string (cb_type b) "text".

Definition text_of (b : content_block) : string := Py.get_or "" (cb_text b).

End Client.

(* ================================================================== *)
(** ** Scripted collaborators, for concrete runs *)

Module Scenario.
Import Client.

Definition text_block (t : string) : content_block :=
  {| cb_type := Some "text"; cb_text := Some t; cb_name := None;
     cb_input := None; cb_id := None |}.

Definition tool_use_block (id : option string) (tool_name : string)
    (input : json) : content_block :=
  {| cb_type := Some "tool_use"; cb_text := None; cb_name := Some tool_name;
     cb_input := Some input; cb_id := id |}.

Definition reply (bs : list content_block) : bedrock_response :=
  {| body_content := Some bs |}.

(** A Bedrock client that answers its k-th call with the k-th entry of a
    script, and a session that does the same for [call_tool]. *)
Definition scripted_bedrock (script : list (exn + bedrock_response))
    : BedrockClient :=
  {| invoke_model := fun h _ _ =>
       nth (model_calls h) script (inl (Exception "no reply scripted")) |}.

Definition scripted_session (catalog : exn + list tool)
    (script : list (exn + string)) : ClientSession :=
  {| list_tools := fun _ => catalog;
     call_tool := fun h _ _ =>
       nth (tool_calls h) script (inl (Exception "no result scripted")) |}.

Definition scripted_client (catalog : exn + list tool)
    (results : list (exn + string))
    (replies : list (exn + bedrock_response)) : MCPClient :=
  {| session := Some (scripted_session catalog results);
     bedrock_client := scripted_bedrock replies;
     claude_model_id := "us.anthropic.claude-3-7-sonnet-20250219-v1:0";
     bedrock_available := true |}.

Definition start (c : MCPClient) : world :=
  {| self := c; trace := []; stdout := [] |}.

(** The client once an authentication error has latched it. *)
Definition latched (c : MCPClient) : MCPClient :=
  {| session := session c; bedrock_client := bedrock_client c;
     claude_model_id := claude_model_id c; bedrock_available := false |}.

Definition no_traceback (e : exn) : string := "".

(** The time-zone scenario: the session answers the one call the scenario
    names and refuses any other. *)
Definition qim4_query : string := "What is the time zone for location QIM4?".
Definition qim4_args : json := JDict [("location_id", JStr "QIM4")].

Definition qim4_session (catalog : list tool) : ClientSession :=
  {| list_tools := fun _ => inr catalog;
     call_tool := fun _ tool_name tool_args =>
       match tool_args with
       | JDict [(k, JStr v)] =>
           if (Py.eq_opt_string tool_name "get_location_by_id"
               && String.eqb k "location_id" && String.eqb v "QIM4")%bool
           then inr "Time Zone: America/Chicago"
           else inl (Exception "unexpected tool call")
       | _ => inl (Exception "unexpected tool call")
       end |}.

Definition qim4_client (catalog : list tool) : MCPClient :=
  {| session := Some (qim4_session catalog);
     bedrock_client :=
       scripted_bedrock
         [ inr (reply [tool_use_block (Some "t1") "get_location_by_id" qim4_args]);
           inr (reply [text_block "QIM4 is in the America/Chicago time zone."]) ];
     claude_model_id := "us.anthropic.claude-3-7-sonnet-20250219-v1:0";
     bedrock_available := true |}.

Definition qim4_expected : string :=
  "[Calling tool get_location_by_id with args {" ++ Py.dq ++ "location_id"
    ++ Py.dq ++ ": " ++ Py.dq ++ "QIM4" ++ Py.dq ++ "}]" ++ Py.nl
    ++ "QIM4 is in the America/Chicago time zone.".

(** A chain of two tool requests, each alone in its reply, then a text. *)
Definition chain2_client : MCPClient :=
  scripted_client (inr [])
    [ inr "r1"; inr "r2" ]
    [ inr (reply [tool_use_block (Some "t1") "first" (JDict [])]);
      inr (reply [tool_use_block (Some "t2") "second" (JDict [])]);
      inr (reply [text_block "done"]) ].

(** A reply of two text blocks. *)
Definition two_texts_client : MCPClient :=
  scripted_client (inr []) []
    [ inr (reply [text_block "a"; text_block "b"]) ].

(** A reply with text around one tool request, whose call succeeds. *)
Definition around_client : MCPClient :=
  scripted_client (inr []) [ inr "r" ]
    [ inr (reply [ text_block "before";
                   tool_use_block None "lookup" (JDict []);
                   text_block "after" ]);
      inr (reply [text_block "follow-up"]) ].

(** A tool request whose call raises. *)
Definition failing_tool_client : MCPClient :=
  scripted_client (inr []) [ inl (Exception "tool exploded") ]
    [ inr (reply [tool_use_block (Some "t1") "boom" (JDict [])]);
      inr (reply [text_block "never asked for"]) ].

(** Collaborators that answer every call: the session returns the name of
    the tool it is asked for, the model answers its first call of a query
    with [first] and every other call with one text block. *)
Definition echo_session (catalog : list tool) : ClientSession :=
  {| list_tools := fun _ => inr catalog;
     call_tool := fun _ tool_name _ => inr (Py.fmt_opt tool_name) |}.

Definition steady_bedrock (first : bedrock_response) : BedrockClient :=
  {| invoke_model := fun h _ _ =>
       inr (if Nat.eqb (model_calls h) 0 then first
            else reply [text_block "ok"]) |}.

(** A first reply with two tool requests and a text in between. *)
Definition two_requests : bedrock_response :=
  reply [ tool_use_block (Some "a") "first" (JDict []);
          text_block "and";
          tool_use_block None "second" (JDict [("n", JInt 2)]) ].

Definition two_requests_client : MCPClient :=
  {| session := Some (echo_session []);
     bedrock_client := steady_bedrock two_requests;
     claude_model_id := "us.anthropic.claude-3-7-sonnet-20250219-v1:0";
     bedrock_available := true |}.

(** A client whose first model call is refused with an expired token. *)
Definition expired_client : MCPClient :=
  scripted_client (inr []) []
    [ inl (ClientError (Some "ExpiredTokenException") (Some "token expired")
             "An error occurred") ].

(** A tool request whose call is cancelled: [call_tool] raises an
    [asyncio.CancelledError], which is no [Exception]. *)
Definition cancelled_tool_client : MCPClient :=
  scripted_client (inr []) [ inl (BaseException "cancelled") ]
    [ inr (reply [tool_use_block (Some "t1") "slow" (JDict [])]);
      inr (reply [text_block "never asked for"]) ].

(** A catalog fetch that is interrupted from the keyboard. *)
Definition interrupted_client : MCPClient :=
  scripted_client (inl (BaseException "KeyboardInterrupt")) []
    [ inr (reply [text_block "never asked for"]) ].

(** Two chained tool requests without an identifier, each alone in its
    reply. *)
Definition idless_chain_client : MCPClient :=
  scripted_client (inr []) [ inr "r1"; inr "r2" ]
    [ inr (reply [tool_use_block None "first" (JDict [])]);
      inr (reply [tool_use_block None "second" (JDict [])]);
      inr (reply [text_block "done"]) ].

(** An environment without any of the variables, and a [boto3.client] that
    builds a client whatever it is given. *)
Definition empty_environ : environ :=
  {| AWS_ACCESS_KEY_ID := None; AWS_SECRET_ACCESS_KEY := None;
     AWS_SESSION_TOKEN := None; AWS_REGION := None |}.

Definition accepting_boto3 (k : nat) (kwargs : client_kwargs)
    : exn + BedrockClient :=
  inr (steady_bedrock (reply [])).

(** A client whose catalog fetch fails. *)
Definition no_catalog_client : MCPClient :=
  scripted_client (inl (Exception "connection closed")) []
    [ inr (reply [text_block "never asked for"]) ].

End Scenario.

(* ================================================================== *)
(** ** location_manager.py *)

Module LocationManager.

(** What an awaited call of the HTTP client can raise, with its [str]: an
    exception that derives from [Exception] (a timeout, an error status, a
    body that is no JSON), or one that does not (a cancelled task, an
    interrupt), which [except Exception] lets through. *)
Inductive raised : Type :=
| Exception (str_e : string)
| BaseException (str_e : string).

(** What the server's code can raise: what the HTTP client raised, and the
    two errors Python raises when a decoded payload has not the shape the
    code reads. *)
Inductive exn : Type :=
| Raised (e : raised)
| AttributeError
| TypeError.

(** The value Python calls [None]; a decoded [null] is the same value. *)
Definition PyNone : json := JNull.

Definition LOCATION_API_BASE : string :=
  "https://int.dev.api.coxautoinc.com/wholesale-marketplace/enablement/locations".

(** An HTTP response: what [raise_for_status()] raises, if anything, and what
    [json()] gives. *)
Record Response : Type := {
  raise_for_status : option raised;
  response_json : raised + json
}.

(** One pass through [async with httpx.AsyncClient() as client]: creating or
    entering the client raised; or the client was entered, [client.get]
    raised or gave a response, and leaving the block raised or did not. *)
Inductive exchange : Type :=
| OpenFailed (e : raised)
| Exchanged (got : raised + Response) (closed : option raised).

(** A function's printed lines and its outcome. *)
Definition io (A : Type) : Type := (list string * (exn + A))%type.

Section Server.

(** [os.getenv("BEARER_TOKEN")]. *)
Variable BEARER_TOKEN : option string.

(** The HTTP client: the exchange that [client.get(url, headers=...,
    timeout=...)] is part of. *)
Variable http_get : string -> list (string * string) -> Z -> exchange.

(** Python's [str] of a decoded list or dict. *)
Variable repr : json -> string.

(** The [try] block of [make_location_request], lines 32 to 34. *)
Definition try_block (got : raised + Response) : raised + json :=
  match got with
  | inl e => inl e
  | inr response =>
      match raise_for_status response with
      | Some e => inl e
      | None => response_json response
      end
  end.

(** The [try] statement, lines 31 to 37: an [Exception] is printed and
    answered with [None]; anything else passes through. *)
Definition try_except (got : raised + Response)
    : list string * (raised + json) :=
  match try_block got with
  | inr data => ([], inr data)
  | inl (Exception str_e) =>
      (["Error fetching location data: " ++ str_e], inr PyNone)
  | inl (BaseException str_e) => ([], inl (BaseException str_e))
  end.

Definition request_headers : list (string * string) :=
  [ ("Authorization", "Bearer " ++ Py.fmt_opt BEARER_TOKEN);
    ("Accept", "application/json") ].

(** The request.  The [try] statement lies inside the [async with] block:
    what creating, entering or leaving the client raises is not caught. *)
Definition make_location_request (url : string) : io json :=
  let headers := request_headers in
  match http_get url headers 30 with
  | OpenFailed e => ([], inl (Raised e))
  | Exchanged got closed =>
      let (printed, outcome) := try_except got in
      match closed with
      | Some e => (printed, inl (Raised e))
      | None =>
          match outcome with
          | inr data => (printed, inr data)
          | inl e => (printed, inl (Raised e))
          end
      end
  end.

(** The payload of an exchange in which nothing was raised, and otherwise
    what was raised first. *)
Definition fetch (url : string) (headers : list (string * string))
    : raised + json :=
  match http_get url headers 30 with
  | OpenFailed e => inl e
  | Exchanged got closed =>
      match try_block got with
      | inl e => inl e
      | inr data =>
          match closed with
          | Some e => inl e
          | None => inr data
          end
      end
  end.

(** [d.get(key, default)]: only a dict has [get]. *)
Definition dict_get (d : json) (key : string) (default : json) : exn + json :=
  match d with
  | JDict items => inr (Py.get_or default (Json.lookup key items))
  | _ => inl AttributeError
  end.

(** [str(x)] inside an f-string. *)
Definition fmt (x : json) : string :=
  match x with
  | JNull => "None"
  | JBool true => "True"
  | JBool false => "False"
  | JInt n => Py.str_of_Z n
  | JStr s => s
  | JList _ | JDict _ => repr x
  end.

Definition and_then {A B} (r : exn + A) (k : A -> exn + B) : exn + B :=
  match r with
  | inl e => inl e
  | inr a => k a
  end.

Definition field (d : json) (key : string) (default : json) : exn + string :=
  and_then (dict_get d key default) (fun v => inr (fmt v)).

Definition Unknown : json := JStr "Unknown".
Definition Not_provided : json := JStr "Not provided".

Definition format_location (location_data : json) : exn + string :=
  and_then (dict_get location_data "address" (JDict [])) (fun address =>
  and_then (dict_get location_data "contact" (JDict [])) (fun contact =>
  and_then (field location_data "locationName" Unknown) (fun locationName =>
  and_then (field location_data "locationCode" Unknown) (fun locationCode =>
  and_then (field location_data "locationType" Unknown) (fun locationType =>
  and_then (field location_data "locationSubType" Unknown) (fun locationSubType =>
  and_then (field location_data "operatedBy" Unknown) (fun operatedBy =>
  and_then (field address "address1" Unknown) (fun address1 =>
  and_then (field address "city" Unknown) (fun city =>
  and_then (field address "stateProvinceRegion" Unknown) (fun region_ =>
  and_then (field address "postalCode" Unknown) (fun postalCode =>
  and_then (field address "country" Unknown) (fun country =>
  and_then (field address "latitude" Unknown) (fun latitude =>
  and_then (field address "longitude" Unknown) (fun longitude =>
  and_then (dict_get location_data "contactPhone" Unknown) (fun contactPhone =>
  and_then (field contact "phone" contactPhone) (fun phone =>
  and_then (field contact "fax" Not_provided) (fun fax =>
  and_then (field contact "email" Not_provided) (fun email =>
  and_then (field location_data "timeZone" Unknown) (fun timeZone =>
  and_then (field location_data "locationActive" Unknown) (fun locationActive =>
  and_then (field location_data "region" Unknown) (fun region =>
  inr (Py.nl
       ++ "Location Name: " ++ locationName ++ Py.nl
       ++ "Location Code: " ++ locationCode ++ Py.nl
       ++ "Type: " ++ locationType ++ Py.nl
       ++ "SubType: " ++ locationSubType ++ Py.nl
       ++ "Operated By: " ++ operatedBy ++ Py.nl
       ++ Py.nl
       ++ "Address: " ++ address1 ++ "," ++ Py.nl
       ++ "         " ++ city ++ "," ++ Py.nl
       ++ "         " ++ region_ ++ " " ++ postalCode ++ Py.nl
       ++ "Country: " ++ country ++ Py.nl
       ++ "Coordinates: " ++ latitude ++ ", " ++ longitude ++ Py.nl
       ++ Py.nl
       ++ "Contact: " ++ Py.nl
       ++ "  Phone: " ++ phone ++ Py.nl
       ++ "  Fax: " ++ fax ++ Py.nl
       ++ "  Email: " ++ email ++ Py.nl
       ++ Py.nl
       ++ "Time Zone: " ++ timeZone ++ Py.nl
       ++ "Location Active: " ++ locationActive ++ Py.nl
       ++ "Region: " ++ region ++ Py.nl)))))))))))))))))))))).

(** [needle in s] for two strings. *)
Fixpoint contains (needle s : string) : bool :=
  (String.prefix needle s
   || match s with
      | EmptyString => false
      | String _ rest => contains needle rest
      end)%bool.

Definition is_str (key : string) (x : json) : bool :=
  match x with JStr s => String.eqb s key | _ => false end.

(** [key in data]. *)
Definition has_key (key : string) (data : json) : exn + bool :=
  match data with
  | JDict items =>
      inr (match Json.lookup key items with Some _ => true | None => false end)
  | JList items => inr (existsb (is_str key) items)
  | JStr s => inr (contains key s)
  | JNull | JBool _ | JInt _ => inl TypeError
  end.

(** [data[key]] where [key in data] held. *)
Definition subscript (data : json) (key : string) : exn + json :=
  match data with
  | JDict items => inr (Py.get_or PyNone (Json.lookup key items))
  | _ => inl TypeError
  end.

Fixpoint format_all (locations : list json) : exn + list string :=
  match locations with
  | [] => inr []
  | location :: rest =>
      and_then (format_location location) (fun first =>
      and_then (format_all rest) (fun others => inr (first :: others)))
  end.

(** [[format_location(location) for location in items]] for a truthy
    [items]: a list is walked; a dict or a string yields strings, which have
    no [get]; anything else cannot be iterated. *)
Definition format_items (items : json) : exn + list string :=
  match items with
  | JList locations => format_all locations
  | JDict _ | JStr _ => inl AttributeError
  | JNull | JBool _ | JInt _ => inl TypeError
  end.

Definition separator : string := Py.nl ++ "---" ++ Py.nl.

(** What the two search tools do with the decoded payload. *)
Definition list_locations (data : json) (unable none_found : string)
    : exn + string :=
  if negb (Json.truthy data) then inr unable
  else
    and_then (has_key "items" data) (fun present =>
    if negb present then inr unable
    else
      and_then (subscript data "items") (fun items =>
      if negb (Json.truthy items) then inr none_found
      else
        and_then (format_items items) (fun locations =>
        inr (Py.join separator locations)))).

Definition search_locations_by_name (name : string) : io string :=
  let url := LOCATION_API_BASE ++ "/search?name=" ++ name in
  match make_location_request url with
  | (out, inl e) => (out, inl e)
  | (out, inr data) =>
      (out, list_locations data
              "Unable to fetch locations or no locations found."
              ("No locations found matching '" ++ name ++ "'."))
  end.

Definition get_locations_by_state (state : string) : io string :=
  let url := LOCATION_API_BASE ++ "/search?state=" ++ state in
  match make_location_request url with
  | (out, inl e) => (out, inl e)
  | (out, inr data) =>
      (out, list_locations data
              ("Unable to fetch locations for state '" ++ state ++ "'.")
              ("No locations found in state '" ++ state ++ "'."))
  end.

End Server.

(** An HTTP client whose every request times out. *)
Definition timing_out (url : string) (headers : list (string * string))
    (timeout : Z) : exchange :=
  Exchanged (inl (Exception "timed out")) None.

(** An HTTP client whose every request is cancelled while it is awaited. *)
Definition cancelled (url : string) (headers : list (string * string))
    (timeout : Z) : exchange :=
  Exchanged (inl (BaseException "")) None.

(** An HTTP client that cannot be created. *)
Definition not_opening (url : string) (headers : list (string * string))
    (timeout : Z) : exchange :=
  OpenFailed (Exception "no transport").

Definition no_repr (x : json) : string := "".

(** An HTTP client that answers every request with the payload [data]. *)
Definition answering (data : json) (url : string)
    (headers : list (string * string)) (timeout : Z) : exchange :=
  Exchanged (inr {| raise_for_status := None; response_json := inr data |})
            None.

End LocationManager.

(* ================================================================== *)
(** * Notions the statements use *)

Import Client.

(** ** Locals, worlds and the turns of a tool request *)

(** The locals after text was appended to the output. *)
Definition with_text (l : locals) (texts : list string) : locals :=
  {| l_messages := l_messages l;
     l_bedrock_response := l_bedrock_response l;
     l_tool_results := l_tool_results l;
     l_final_text := (l_final_text l ++ texts)%list |}.

(** The world once [evs] (newest first) were recorded and [lines]
    printed. *)
Definition logged (evs : list event) (lines : list string) (w : world)
    : world :=
  {| self := self w;
     trace := (evs ++ trace w)%list;
     stdout := (stdout w ++ lines)%list |}.

Definition initial_locals (query : string) (first_reply : bedrock_response)
    : locals :=
  {| l_messages := initial_messages query;
     l_bedrock_response := first_reply;
     l_tool_results := [];
     l_final_text := [] |}.

(** The transcript after the tool request [b] was answered with [result]. *)
Definition extended (l : locals) (b : content_block) (result : string)
    : list message :=
  (l_messages l
     ++ tool_turns (cb_name b) (Py.get_or (JDict []) (cb_input b))
          (tool_id_of b (l_tool_results l)) result)%list.

Definition note_of (b : content_block) : string :=
  tool_call_note (cb_name b) (Py.get_or (JDict []) (cb_input b)).

Definition call_of (b : content_block) : event :=
  ev_call_tool (cb_name b) (Py.get_or (JDict []) (cb_input b)).

(** ** Chains of tool requests *)

(** A list of blocks without a tool request. *)
Definition tool_free (bs : list content_block) : bool :=
  forallb (fun b => negb (is_tool_use b)) bs.

(** From the history [h0] on, the collaborators of the client [c] with the
    session [s] play a chain of [N] tool requests: the catalog can be
    fetched; each of the first [N] model calls is answered by a reply that
    holds one tool request and nothing else, and the next one by a reply
    without a tool request; each of the first [N] tool calls is answered. *)
Definition answers_chain (c : MCPClient) (s : ClientSession) (h0 : history)
    (N : nat) : Prop :=
  (forall h, exists catalog, list_tools s h = inr catalog)
  /\ (forall k h tool_name tool_args,
        tool_calls h = tool_calls h0 + k -> k < N ->
        exists result, call_tool s h tool_name tool_args = inr result)
  /\ (forall k h modelId body,
        model_calls h = model_calls h0 + k -> k < N ->
        exists b,
          invoke_model (bedrock_client c) h modelId body
          = inr {| body_content := Some [b] |}
          /\ is_tool_use b = true)
  /\ (forall h modelId body,
        model_calls h = model_calls h0 + N ->
        exists reply,
          invoke_model (bedrock_client c) h modelId body = inr reply
          /\ tool_free (Py.get_or [] (body_content reply)) = true).

(** ** Failures of the collaborators *)

(** The exception a remote call brings into [process_query] when the call,
    made after the history [h], fails: what the session raised, and for a
    model call what [_invoke_bedrock_claude] raises in its place. *)
Definition remote_failure (s : ClientSession) (bc : BedrockClient)
    (ev : event) (h : history) : option exn :=
  match ev with
  | ev_list_tools =>
      match list_tools s h with inl e => Some e | inr _ => None end
  | ev_invoke_model modelId body =>
      match invoke_model bc h modelId body with
      | inl e => Some (bedrock_error e)
      | inr _ => None
      end
  | ev_call_tool tool_name tool_args =>
      match call_tool s h tool_name tool_args with
      | inl e => Some e
      | inr _ => None
      end
  end.

(** Every call among [new] (newest first, made after [h0]) was answered. *)
Fixpoint all_answered (s : ClientSession) (bc : BedrockClient) (h0 : history)
    (new : list event) : Prop :=
  match new with
  | [] => True
  | ev :: older =>
      remote_failure s bc ev (older ++ h0)%list = None
      /\ all_answered s bc h0 older
  end.

(** Only the newest call may have failed, and then its exception is the
    outcome. *)
Definition fails_last {A} (s : ClientSession) (bc : BedrockClient)
    (h0 : history) (new : list event) (r : outcome A) : Prop :=
  match new with
  | [] => True
  | ev :: older =>
      all_answered s bc h0 older
      /\ forall e, remote_failure s bc ev (older ++ h0)%list = Some e -> r = Raise e
  end.

Definition same_remote (c c' : MCPClient) : Prop :=
  session c' = session c
  /\ bedrock_client c' = bedrock_client c
  /\ claude_model_id c' = claude_model_id c.

(** A computation that keeps the client's collaborators, only adds to the
    trace, and stops at the first remote call that fails. *)
Definition tracked {A} (s : ClientSession) (m : M A) : Prop :=
  forall w r w',
    m w = (r, w') ->
    same_remote (self w) (self w')
    /\ exists new,
         trace w' = (new ++ trace w)%list
         /\ fails_last s (bedrock_client (self w)) (trace w) new r.

(** ** Runs of queries *)

(** The world after a run of queries, each started where the one before
    ended. *)
Fixpoint after_queries (format_exc : exn -> string) (queries : list string)
    (w : world) : world :=
  match queries with
  | [] => w
  | query :: rest =>
      after_queries format_exc rest (snd (process_query format_exc query w))
  end.

(** ** The invariant of the transcript *)

(** The turn [m] is an assistant turn that holds a tool request with the
    identifier [id]. *)
Definition requests_tool (id : string) (m : message) : bool :=
  match msg_role m, msg_content m with
  | assistant, blocks bs =>
      existsb (fun b => match b with
                        | tool_use _ _ i => String.eqb i id
                        | tool_result _ _ => false
                        end) bs
  | _, _ => false
  end.

(** The identifiers the tool results of a turn refer to. *)
Definition result_ids (m : message) : list string :=
  match msg_content m with
  | plain _ => []
  | blocks bs =>
      flat_map (fun b => match b with
                         | tool_result _ i => [i]
                         | tool_use _ _ _ => []
                         end) bs
  end.

(** Every tool result of the turn [m] is carried by a user turn and answers
    a tool request of the turn [prev] right before it. *)
Definition turn_ok (prev : option message) (m : message) : bool :=
  forallb (fun id =>
             match msg_role m, prev with
             | user, Some p => requests_tool id p
             | _, _ => false
             end) (result_ids m).

Fixpoint transcript_ok_from (prev : option message) (ms : list message)
    : bool :=
  match ms with
  | [] => true
  | m :: rest => turn_ok prev m && transcript_ok_from (Some m) rest
  end.

Definition transcript_ok (ms : list message) : bool :=
  transcript_ok_from None ms.

(** A remote call that sends a transcript sends one that satisfies the
    invariant. *)
Definition sent_ok (ev : event) : bool :=
  match ev with
  | ev_invoke_model _ body => transcript_ok (messages body)
  | _ => true
  end.

(** ** The remote calls of a query, in the order they are made *)

Definition is_list_tools (ev : event) : bool :=
  match ev with ev_list_tools => true | _ => false end.

(** How many catalog fetches a trace holds. *)
Definition catalog_fetches (h : history) : nat :=
  length (filter is_list_tools h).

(** The request bodies a list of calls sends to the model. *)
Definition requests_of (evs : list event) : list request_body :=
  flat_map (fun ev => match ev with
                      | ev_invoke_model _ body => [body]
                      | _ => []
                      end) evs.

(** The two turns the loop appends for the tool request [b] when the tool
    results so far are [results]. *)
Definition turns_for (results : list string) (b : content_block)
    (result : string) : list message :=
  tool_turns (cb_name b) (Py.get_or (JDict []) (cb_input b))
    (tool_id_of b results) result.

(** [loop_calls modelId tls results msgs bs evs finished]: the calls [evs]
    (oldest first) are what the loop over the blocks [bs] can make when it
    starts with the transcript [msgs]: nothing for a block that is no tool
    request; for a tool request its [callTool] and then the model call with
    the transcript extended by the request's two turns; the loop goes on only
    after a model call, and may stop after any call ([finished] is [false]
    then). *)
Inductive loop_calls (modelId : string) (tls : list tool_spec)
    (results : list string)
    : list message -> list content_block -> list event -> bool -> Prop :=
| loop_done msgs :
    loop_calls modelId tls results msgs [] [] true
| loop_skip msgs b bs evs finished :
    is_tool_use b = false ->
    loop_calls modelId tls results msgs bs evs finished ->
    loop_calls modelId tls results msgs (b :: bs) evs finished
| loop_stop_at_tool msgs b bs :
    is_tool_use b = true ->
    loop_calls modelId tls results msgs (b :: bs) [call_of b] false
| loop_stop_at_model msgs b bs result :
    is_tool_use b = true ->
    loop_calls modelId tls results msgs (b :: bs)
      [ call_of b;
        ev_invoke_model modelId
          (request_body_of (msgs ++ turns_for results b result) tls) ]
      false
| loop_go_on msgs b bs result evs finished :
    is_tool_use b = true ->
    loop_calls modelId tls results (msgs ++ turns_for results b result) bs
      evs finished ->
    loop_calls modelId tls results msgs (b :: bs)
      (call_of b
       :: ev_invoke_model modelId
            (request_body_of (msgs ++ turns_for results b result) tls)
       :: evs)
      finished.

(** The calls of one query of a client with a session (oldest first): the
    catalog fetch; then, if it was answered with a catalog whose tools are
    [tls], the first model call; then, if that was answered with the blocks
    [bs], the calls of the loop over [bs]. *)
Inductive query_calls (modelId : string) (query : string)
    : list event -> bool -> Prop :=
| query_stop_at_catalog :
    query_calls modelId query [ev_list_tools] false
| query_stop_at_model tls :
    query_calls modelId query
      [ ev_list_tools;
        ev_invoke_model modelId (request_body_of (initial_messages query) tls) ]
      false
| query_loop tls bs evs finished :
    loop_calls modelId tls [] (initial_messages query) bs evs finished ->
    query_calls modelId query
      (ev_list_tools
       :: ev_invoke_model modelId
            (request_body_of (initial_messages query) tls)
       :: evs)
      finished.

(** Each request of [rs] carries the transcript of the one before it
    ([prev] for the first) with the two turns of one tool request added: an
    assistant turn with the request and a user turn with its result. *)
Fixpoint grows_by_two_turns (prev : list message) (rs : list request_body)
    : Prop :=
  match rs with
  | [] => True
  | r :: rest =>
      (exists tool_name tool_args tool_id result,
         messages r
         = (prev
              ++ [ {| msg_role := assistant;
                      msg_content :=
                        blocks [tool_use tool_name tool_args tool_id] |};
                   {| msg_role := user;
                      msg_content :=
                        blocks [tool_result result tool_id] |} ])%list)
      /\ grows_by_two_turns (messages r) rest
  end.

(** The collaborators of the client [c] with the session [s] answer every
    call. *)
Definition always_answer (c : MCPClient) (s : ClientSession) : Prop :=
  (forall h tool_name tool_args,
     exists result, call_tool s h tool_name tool_args = inr result)
  /\ (forall h modelId body,
        exists reply, invoke_model (bedrock_client c) h modelId body = inr reply).

(** A model call is made with the model [modelId] and with a body that
    names the version [bedrock-2023-05-31], allows 4096 tokens, and carries
    the tools [tls] when there are any and no [tools] key otherwise. *)
Definition sent_with (modelId : string) (tls : list tool_spec) (ev : event)
    : Prop :=
  match ev with
  | ev_invoke_model m body =>
      m = modelId
      /\ anthropic_version body = "bedrock-2023-05-31"
      /\ max_tokens body = 4096%Z
      /\ tools body = match tls with [] => None | _ :: _ => Some tls end
  | _ => True
  end.

(** A location as [format_location] can print it: a dict whose
    ["address"] and ["contact"], when present, are dicts. *)
Definition is_dict (x : json) : bool :=
  match x with JDict _ => true | _ => false end.

Definition well_shaped (location : json) : bool :=
  match location with
  | JDict items =>
      is_dict (Py.get_or (JDict []) (Json.lookup "address" items))
      && is_dict (Py.get_or (JDict []) (Json.lookup "contact" items))
  | _ => false
  end.

(** [xs] is the beginning of [ys]. *)
Definition begins {A} (xs ys : list A) : Prop := exists rest, ys = (xs ++ rest)%list.

(* ================================================================== *)
(** * Properties of the query loop *)

(** ** What one step of the loop does *)

Section Steps.

Variable s : ClientSession.
Variable available_tools : list tool_spec.

Lemma with_text_nil l : with_text l [] = l.
Proof. destruct l; unfold with_text; simpl. now rewrite app_nil_r. Qed.

Lemma with_text_app l xs ys :
  with_text (with_text l xs) ys = with_text l (xs ++ ys).
Proof. unfold with_text; simpl. now rewrite app_assoc. Qed.

Lemma text_not_tool_use b : is_text b = true -> is_tool_use b = false.
Proof.
  unfold is_text, is_tool_use, Py.eq_opt_string.
  destruct (cb_type b) as [t|]; [|reflexivity].
  intros H. apply String.eqb_eq in H. now subst t.
Qed.

(** A block that is no tool request costs no remote call: a text block adds
    its text, any other block is skipped. *)
Lemma process_block_no_tool b l w :
  is_tool_use b = false ->
  process_block s available_tools b l w
  = (Return (with_text l (follow_up_text [b])), w).
Proof.
  intros Hb. unfold process_block, is_tool_use in *. simpl.
  destruct (Py.eq_opt_string (cb_type b) "text").
  - reflexivity.
  - rewrite Hb. unfold ret. now rewrite with_text_nil.
Qed.

Lemma follow_up_text_app xs ys :
  follow_up_text (xs ++ ys) = (follow_up_text xs ++ follow_up_text ys)%list.
Proof.
  induction xs as [|x xs IH]; simpl; [reflexivity|].
  destruct (Py.eq_opt_string (cb_type x) "text"); simpl; now rewrite IH.
Qed.

Lemma follow_up_text_texts bs :
  forallb is_text bs = true -> follow_up_text bs = map text_of bs.
Proof.
  induction bs as [|b bs IH]; simpl; [reflexivity|].
  intros H. apply andb_true_iff in H as [Hb Hbs].
  unfold is_text in Hb. rewrite Hb. unfold text_of. now rewrite IH.
Qed.

Lemma texts_no_tool_use bs :
  forallb is_text bs = true ->
  forallb (fun b => negb (is_tool_use b)) bs = true.
Proof.
  induction bs as [|b bs IH]; simpl; [reflexivity|].
  intros H. apply andb_true_iff in H as [Hb Hbs].
  now rewrite (text_not_tool_use _ Hb), IH.
Qed.

(** A run of blocks without a tool request: no remote call, the texts are
    appended in order. *)
Lemma process_blocks_no_tool bs : forall l w,
  forallb (fun b => negb (is_tool_use b)) bs = true ->
  process_blocks s available_tools bs l w
  = (Return (with_text l (follow_up_text bs)), w).
Proof.
  induction bs as [|b bs IH]; intros l w H; simpl in *.
  - unfold ret. now rewrite with_text_nil.
  - apply andb_true_iff in H as [Hb Hbs].
    apply negb_true_iff in Hb.
    unfold bind. rewrite (process_block_no_tool _ _ _ Hb).
    rewrite (IH _ _ Hbs), with_text_app.
    change (b :: bs) with ([b] ++ bs)%list.
    now rewrite <- follow_up_text_app.
Qed.

(** The loop over a concatenation runs the first part, then the second. *)
Lemma process_blocks_app xs ys : forall l w,
  process_blocks s available_tools (xs ++ ys) l w
  = bind (process_blocks s available_tools xs l)
         (process_blocks s available_tools ys) w.
Proof.
  induction xs as [|x xs IH]; intros l w; simpl.
  - reflexivity.
  - unfold bind.
    destruct (process_block s available_tools x l w) as [[l'|e] w'].
    + now rewrite IH.
    + reflexivity.
Qed.

Lemma follow_up_text_filter bs :
  follow_up_text bs = map text_of (filter is_text bs).
Proof.
  induction bs as [|b bs IH]; simpl; [reflexivity|].
  unfold is_text at 1.
  destruct (Py.eq_opt_string (cb_type b) "text"); simpl; now rewrite IH.
Qed.

Lemma tool_free_filter bs :
  tool_free bs = true -> filter is_tool_use bs = [].
Proof.
  unfold tool_free.
  induction bs as [|b bs IH]; simpl; [reflexivity|].
  intros H. apply andb_true_iff in H as [Hb Hbs].
  apply negb_true_iff in Hb. rewrite Hb. now apply IH.
Qed.

End Steps.

(** ** Runs in which no collaborator raises *)

Section HappyRuns.

Variable format_exc : exn -> string.

(** A model call that is answered. *)
Lemma invoke_answered msgs tls w reply :
  bedrock_available (self w) = true ->
  invoke_model (bedrock_client (self w)) (trace w) (claude_model_id (self w))
    (request_body_of msgs tls) = inr reply ->
  _invoke_bedrock_claude msgs tls w
  = (Return reply,
     logged [ev_invoke_model (claude_model_id (self w))
               (request_body_of msgs tls)] [] w).
Proof.
  intros Hav Hi.
  unfold _invoke_bedrock_claude, bind, get_self. simpl. rewrite Hav. simpl.
  unfold try_except_ClientError, client_invoke_model, bind, get_self, get_trace, record,
    lift. simpl.
  rewrite Hi. unfold ret, logged. simpl. now rewrite app_nil_r.
Qed.

(** The query up to its first reply: the catalog is fetched, the model is
    called once, and the loop starts on the reply's blocks. *)
Lemma process_query_first_reply query w s catalog reply :
  session (self w) = Some s ->
  bedrock_available (self w) = true ->
  list_tools s (trace w) = inr catalog ->
  invoke_model (bedrock_client (self w)) (ev_list_tools :: trace w)
    (claude_model_id (self w))
    (request_body_of (initial_messages query) (map tool_spec_of catalog))
  = inr reply ->
  process_query format_exc query w
  = match
      process_blocks s (map tool_spec_of catalog)
        (Py.get_or [] (body_content reply))
        (initial_locals query reply)
        (logged
           [ev_invoke_model (claude_model_id (self w))
              (request_body_of (initial_messages query)
                 (map tool_spec_of catalog));
            ev_list_tools]
           ["Sending request to Claude via AWS Bedrock..."] w)
    with
    | (Return l, w') => (Return (Py.join Py.nl (l_final_text l)), w')
    | (Raise e, w') =>
        if is_Exception e then (Return (error_text format_exc e), w')
        else (Raise e, w')
    end.
Proof.
  intros Hs Hav Hl Hi.
  unfold process_query, process_query_body, bind, get_self. simpl.
  rewrite Hs.
  unfold try_except, session_list_tools, bind, get_trace, record, lift. simpl.
  rewrite Hl. unfold ret, print. simpl.
  rewrite (invoke_answered _ _ _ reply); [| exact Hav | exact Hi].
  unfold logged, initial_locals. simpl. rewrite app_nil_r.
  match goal with
  | |- context [process_blocks ?a ?b ?c ?d ?e] =>
      destruct (process_blocks a b c d e) as [[l|e'] w']
  end; reflexivity.
Qed.

(** A tool request whose call and whose follow-up model call both are
    answered: one [callTool], one model call, two turns added to the
    transcript, the note and the follow-up's texts added to the output. *)
Lemma process_block_answered s tls b l w result reply :
  is_tool_use b = true ->
  bedrock_available (self w) = true ->
  call_tool s (trace w) (cb_name b) (Py.get_or (JDict []) (cb_input b))
  = inr result ->
  invoke_model (bedrock_client (self w)) (call_of b :: trace w)
    (claude_model_id (self w)) (request_body_of (extended l b result) tls)
  = inr reply ->
  process_block s tls b l w
  = (Return
       {| l_messages := extended l b result;
          l_bedrock_response := reply;
          l_tool_results := l_tool_results l;
          l_final_text :=
            (l_final_text l
               ++ note_of b
               :: follow_up_text (Py.get_or [] (body_content reply)))%list |},
     logged
       [ev_invoke_model (claude_model_id (self w))
          (request_body_of (extended l b result) tls);
        call_of b]
       ["Calling tool: " ++ Py.fmt_opt (cb_name b);
        "Getting Claude's response to the tool result..."] w).
Proof.
  intros Hb Hav Hc Hi.
  unfold process_block.
  assert (Ht : Py.eq_opt_string (cb_type b) "text" = false).
  { unfold is_tool_use, Py.eq_opt_string in *.
    destruct (cb_type b) as [t|]; [|reflexivity].
    apply String.eqb_eq in Hb. now subst t. }
  rewrite Ht. unfold is_tool_use in Hb. rewrite Hb.
  unfold bind, print, session_call_tool, bind, get_trace, record, lift. simpl.
  rewrite Hc. unfold ret. simpl.
  rewrite (invoke_answered _ _ _ reply); [| exact Hav | exact Hi].
  unfold logged, extended, note_of, call_of. simpl.
  rewrite <- !app_assoc. reflexivity.
Qed.

End HappyRuns.

(** ** Replies of text only *)

Section TextOnly.

Variable format_exc : exn -> string.

(** C3, as the code has it: when the reply to a query holds text blocks
    only, [process_query] returns their texts in order, joined by single
    newlines, after exactly one Model Invoker call and no [callTool] call. *)
Theorem text_only_reply_joined_by_newlines query w s catalog reply bs :
  session (self w) = Some s ->
  bedrock_available (self w) = true ->
  list_tools s (trace w) = inr catalog ->
  invoke_model (bedrock_client (self w)) (ev_list_tools :: trace w)
    (claude_model_id (self w))
    (request_body_of (initial_messages query) (map tool_spec_of catalog))
  = inr reply ->
  body_content reply = Some bs ->
  forallb is_text bs = true ->
  fst (process_query format_exc query w)
  = Return (Py.join Py.nl (map text_of bs))
  /\ model_calls (trace (snd (process_query format_exc query w)))
     = model_calls (trace w) + 1
  /\ tool_calls (trace (snd (process_query format_exc query w)))
     = tool_calls (trace w).
Proof.
  intros Hs Hav Hl Hi Hbs Ht.
  rewrite (process_query_first_reply format_exc query w s catalog reply Hs Hav Hl Hi).
  rewrite Hbs. simpl Py.get_or.
  rewrite process_blocks_no_tool by now apply texts_no_tool_use.
  rewrite (follow_up_text_texts _ Ht).
  unfold model_calls, tool_calls. simpl.
  split; [reflexivity | split; lia].
Qed.

End TextOnly.

(** The theorem at a reply of two text blocks. *)
Lemma text_only_reply_witness :
  fst (process_query Scenario.no_traceback "q"
         (Scenario.start Scenario.two_texts_client))
  = Return (Py.join Py.nl ["a"; "b"])
  /\ model_calls (trace (snd (process_query Scenario.no_traceback "q"
                                (Scenario.start Scenario.two_texts_client))))
     = 0 + 1
  /\ tool_calls (trace (snd (process_query Scenario.no_traceback "q"
                               (Scenario.start Scenario.two_texts_client))))
     = 0.
Proof.
  apply (text_only_reply_joined_by_newlines Scenario.no_traceback "q"
           (Scenario.start Scenario.two_texts_client)
           (Scenario.scripted_session (inr []) []) []
           (Scenario.reply [Scenario.text_block "a"; Scenario.text_block "b"])
           [Scenario.text_block "a"; Scenario.text_block "b"]);
    reflexivity.
Defined.

(** C3 as the specification words it fails: for a reply of the two text
    blocks [a] and [b] the query returns them with a newline in between,
    which is not their concatenation. *)
Lemma text_only_reply_is_not_plain_concatenation :
  forallb is_text [Scenario.text_block "a"; Scenario.text_block "b"] = true
  /\ fst (process_query Scenario.no_traceback "q"
            (Scenario.start Scenario.two_texts_client))
     = Return ("a" ++ Py.nl ++ "b")
  /\ fst (process_query Scenario.no_traceback "q"
            (Scenario.start Scenario.two_texts_client))
     <> Return
          (String.concat ""
             (map text_of [Scenario.text_block "a"; Scenario.text_block "b"])).
Proof.
  split; [reflexivity | split; [reflexivity | discriminate]].
Qed.

(** ** The time-zone scenario *)

(** C4: in the scenario of the specification (one tool request [t1] for
    [get_location_by_id] with the location QIM4, answered, then one text
    block), [process_query] returns the note of the tool call, a newline,
    and the model's final text; this for any tool catalog and traceback
    text. *)
Theorem qim4_scenario_output (format_exc : exn -> string) (catalog : list tool) :
  fst (process_query format_exc Scenario.qim4_query
         (Scenario.start (Scenario.qim4_client catalog)))
  = Return Scenario.qim4_expected.
Proof. reflexivity. Qed.

(** ** One tool request among text *)

Section OneToolRequest.

Variable format_exc : exn -> string.

(** C2: when the reply to a query holds exactly one tool request [b], with
    text blocks [pre] before and [post] after it, and the tool call and the
    follow-up model call are answered, [process_query] makes exactly two
    Model Invoker calls and exactly one [callTool] call; the returned string
    holds, one per line, the texts of [pre], the note of the tool call, the
    texts of the text blocks of the follow-up reply, and the texts of
    [post]: the pre-tool text comes first and the follow-up text after
    it. *)
Theorem one_tool_request_two_model_calls
    query w s catalog reply pre b post result follow_up :
  session (self w) = Some s ->
  bedrock_available (self w) = true ->
  list_tools s (trace w) = inr catalog ->
  invoke_model (bedrock_client (self w)) (ev_list_tools :: trace w)
    (claude_model_id (self w))
    (request_body_of (initial_messages query) (map tool_spec_of catalog))
  = inr reply ->
  body_content reply = Some (pre ++ b :: post)%list ->
  forallb is_text pre = true ->
  is_tool_use b = true ->
  forallb is_text post = true ->
  call_tool s
    (ev_invoke_model (claude_model_id (self w))
       (request_body_of (initial_messages query) (map tool_spec_of catalog))
     :: ev_list_tools :: trace w)
    (cb_name b) (Py.get_or (JDict []) (cb_input b))
  = inr result ->
  invoke_model (bedrock_client (self w))
    (call_of b
     :: ev_invoke_model (claude_model_id (self w))
          (request_body_of (initial_messages query) (map tool_spec_of catalog))
     :: ev_list_tools :: trace w)
    (claude_model_id (self w))
    (request_body_of (extended (initial_locals query reply) b result)
       (map tool_spec_of catalog))
  = inr follow_up ->
  fst (process_query format_exc query w)
  = Return
      (String.concat Py.nl
         (map text_of pre
            ++ ("[Calling tool " ++ Py.fmt_opt (cb_name b) ++ " with args "
                ++ Json.dumps (Py.get_or (JDict []) (cb_input b))
                ++ "]")%string
            :: map text_of
                 (filter is_text (Py.get_or [] (body_content follow_up)))
            ++ map text_of post)%list)
  /\ model_calls (trace (snd (process_query format_exc query w)))
     = model_calls (trace w) + 2
  /\ tool_calls (trace (snd (process_query format_exc query w)))
     = tool_calls (trace w) + 1.
Proof.
  intros Hs Hav Hl Hi Hbs Hpre Hb Hpost Hc Hf.
  assert (E : exists w',
             process_query format_exc query w
             = (Return
                  (Py.join Py.nl
                     (map text_of pre
                        ++ note_of b
                        :: follow_up_text
                             (Py.get_or [] (body_content follow_up))
                        ++ map text_of post)%list), w')
             /\ trace w'
                = ev_invoke_model (claude_model_id (self w))
                    (request_body_of
                       (extended (initial_locals query reply) b result)
                       (map tool_spec_of catalog))
                  :: call_of b
                  :: ev_invoke_model (claude_model_id (self w))
                       (request_body_of (initial_messages query)
                          (map tool_spec_of catalog))
                  :: ev_list_tools :: trace w).
  { rewrite (process_query_first_reply format_exc query w s catalog reply
               Hs Hav Hl Hi).
    rewrite Hbs. simpl Py.get_or.
    rewrite process_blocks_app. unfold bind at 1.
    rewrite process_blocks_no_tool by now apply texts_no_tool_use.
    simpl process_blocks. unfold bind at 1.
    rewrite (process_block_answered s _ b _ _ result follow_up);
      [ | exact Hb | exact Hav | exact Hc | exact Hf ].
    rewrite process_blocks_no_tool by now apply texts_no_tool_use.
    rewrite (follow_up_text_texts _ Hpre), (follow_up_text_texts _ Hpost).
    eexists. split.
    - simpl. rewrite <- app_assoc. reflexivity.
    - reflexivity. }
  destruct E as (w' & E & Htr). rewrite E. simpl. rewrite Htr.
  rewrite follow_up_text_filter.
  unfold model_calls, tool_calls. simpl.
  split; [reflexivity | split; lia].
Qed.

End OneToolRequest.

(** The theorem at a reply with text before and after one tool request. *)
Lemma one_tool_request_witness :
  fst (process_query Scenario.no_traceback "q"
         (Scenario.start Scenario.around_client))
  = Return
      ("before" ++ Py.nl ++ "[Calling tool lookup with args {}]" ++ Py.nl
       ++ "follow-up" ++ Py.nl ++ "after")
  /\ model_calls (trace (snd (process_query Scenario.no_traceback "q"
                                (Scenario.start Scenario.around_client))))
     = 0 + 2
  /\ tool_calls (trace (snd (process_query Scenario.no_traceback "q"
                               (Scenario.start Scenario.around_client))))
     = 0 + 1.
Proof.
  apply (one_tool_request_two_model_calls Scenario.no_traceback "q"
           (Scenario.start Scenario.around_client)
           (Scenario.scripted_session (inr []) [inr "r"]) []
           (Scenario.reply
              [ Scenario.text_block "before";
                Scenario.tool_use_block None "lookup" (JDict []);
                Scenario.text_block "after" ])
           [Scenario.text_block "before"]
           (Scenario.tool_use_block None "lookup" (JDict []))
           [Scenario.text_block "after"]
           "r"
           (Scenario.reply [Scenario.text_block "follow-up"]));
    reflexivity.
Defined.

(** ** Chains of tool requests *)

Section Chains.

Variable format_exc : exn -> string.

(** Any answered model call of a chain. *)
Lemma chain_reply c s h0 N k h modelId body :
  answers_chain c s h0 N ->
  model_calls h = model_calls h0 + k -> k <= N ->
  exists reply, invoke_model (bedrock_client c) h modelId body = inr reply.
Proof.
  intros (_ & _ & Hreq & Hlast) Hk Hle.
  destruct (Nat.eq_dec k N) as [->|Hne].
  - destruct (Hlast h modelId body Hk) as (reply & E & _). now exists reply.
  - destruct (Hreq k h modelId body Hk ltac:(lia)) as (b & E & _).
    eexists. exact E.
Qed.

(** C1, as the code has it: on a chain of [N] tool requests, each alone in
    its reply, [process_query] returns a string after [1 + min N 1] Model
    Invoker calls and [min N 1] [callTool] calls.  Only the tool request of
    the first reply is executed: the [callTool] calls of the query are those
    of the tool requests of the first reply.  The query returns after the
    first follow-up reply, whether or not that reply holds a tool request:
    what it returns is the note of the one tool call and the texts of the
    text blocks of the follow-up reply. *)
Theorem chain_makes_at_most_two_model_calls query w s N :
  session (self w) = Some s ->
  bedrock_available (self w) = true ->
  answers_chain (self w) s (trace w) N ->
  (exists text, fst (process_query format_exc query w) = Return text)
  /\ model_calls (trace (snd (process_query format_exc query w)))
     = model_calls (trace w) + (1 + Nat.min N 1)
  /\ tool_calls (trace (snd (process_query format_exc query w)))
     = tool_calls (trace w) + Nat.min N 1
  /\ exists catalog first_reply,
       list_tools s (trace w) = inr catalog
       /\ invoke_model (bedrock_client (self w)) (ev_list_tools :: trace w)
            (claude_model_id (self w))
            (request_body_of (initial_messages query)
               (map tool_spec_of catalog))
          = inr first_reply
       /\ filter is_call_tool
            (trace (snd (process_query format_exc query w)))
          = (map call_of
               (filter is_tool_use
                  (Py.get_or [] (body_content first_reply)))
             ++ filter is_call_tool (trace w))%list
       /\ (0 < N ->
           exists b result follow_up,
             body_content first_reply = Some [b]
             /\ is_tool_use b = true
             /\ call_tool s
                  (ev_invoke_model (claude_model_id (self w))
                     (request_body_of (initial_messages query)
                        (map tool_spec_of catalog))
                   :: ev_list_tools :: trace w)
                  (cb_name b) (Py.get_or (JDict []) (cb_input b))
                = inr result
             /\ invoke_model (bedrock_client (self w))
                  (call_of b
                   :: ev_invoke_model (claude_model_id (self w))
                        (request_body_of (initial_messages query)
                           (map tool_spec_of catalog))
                   :: ev_list_tools :: trace w)
                  (claude_model_id (self w))
                  (request_body_of
                     (extended (initial_locals query first_reply) b result)
                     (map tool_spec_of catalog))
                = inr follow_up
             /\ fst (process_query format_exc query w)
                = Return
                    (String.concat Py.nl
                       (("[Calling tool " ++ Py.fmt_opt (cb_name b)
                         ++ " with args "
                         ++ Json.dumps (Py.get_or (JDict []) (cb_input b))
                         ++ "]")
                        :: map text_of
                             (filter is_text
                                (Py.get_or [] (body_content follow_up)))))).
Proof.
  intros Hs Hav Hchain.
  pose proof Hchain as (Hcat & Htool & Hreq & Hlast).
  destruct (Hcat (trace w)) as (catalog & Hl).
  set (tls := map tool_spec_of catalog).
  set (first := ev_invoke_model (claude_model_id (self w))
                  (request_body_of (initial_messages query) tls)).
  destruct N as [|N].
  - (* no tool request: the first reply ends the query *)
    destruct (Hlast (ev_list_tools :: trace w) (claude_model_id (self w))
                (request_body_of (initial_messages query) tls))
      as (reply & Hi & Hfree).
    { unfold model_calls. simpl. lia. }
    rewrite (process_query_first_reply format_exc query w s catalog reply
               Hs Hav Hl Hi).
    fold tls. fold first.
    rewrite process_blocks_no_tool by exact Hfree.
    unfold model_calls, tool_calls. simpl.
    split; [eexists; reflexivity |].
    split; [lia |]. split; [lia |].
    exists catalog, reply.
    split; [exact Hl |]. split; [exact Hi |].
    split; [now rewrite (tool_free_filter _ Hfree) | lia].
  - (* the first reply holds one tool request *)
    destruct (Hreq 0 (ev_list_tools :: trace w) (claude_model_id (self w))
                (request_body_of (initial_messages query) tls))
      as (b & Hi & Hb).
    { unfold model_calls. simpl. lia. }
    { lia. }
    set (reply := {| body_content := Some [b] |}) in *.
    destruct (Htool 0 (first :: ev_list_tools :: trace w) (cb_name b)
                (Py.get_or (JDict []) (cb_input b)))
      as (result & Hc).
    { unfold tool_calls. simpl. lia. }
    { lia. }
    destruct (chain_reply (self w) s (trace w) (S N) 1
                (call_of b :: first :: ev_list_tools :: trace w)
                (claude_model_id (self w))
                (request_body_of
                   (extended (initial_locals query reply) b result) tls)
                Hchain)
      as (follow_up & Hf).
    { unfold model_calls. simpl. lia. }
    { lia. }
    rewrite (process_query_first_reply format_exc query w s catalog reply
               Hs Hav Hl Hi).
    fold tls. fold first. simpl Py.get_or. simpl process_blocks.
    unfold bind.
    rewrite (process_block_answered s tls b _ _ result follow_up);
      [ | exact Hb | exact Hav | exact Hc | exact Hf ].
    unfold ret, model_calls, tool_calls. simpl.
    split; [eexists; reflexivity |].
    split; [lia |]. split; [lia |].
    exists catalog, reply.
    split; [exact Hl |]. split; [exact Hi |].
    split; [subst reply; simpl; now rewrite Hb |].
    intros _. exists b, result, follow_up.
    split; [reflexivity |]. split; [exact Hb |].
    split; [exact Hc |]. split; [exact Hf |].
    now rewrite follow_up_text_filter.
Qed.

End Chains.

(** The scripted chain of two tool requests is a chain. *)
Lemma chain2_is_a_chain :
  answers_chain Scenario.chain2_client
    (Scenario.scripted_session (inr []) [inr "r1"; inr "r2"]) [] 2.
Proof.
  unfold answers_chain. simpl.
  split; [| split; [| split]].
  - intros h. now exists [].
  - intros k h n a Hk Hlt. rewrite Hk.
    destruct k as [|[|k]]; [now exists "r1" | now exists "r2" | lia].
  - intros k h m body Hk Hlt. rewrite Hk.
    destruct k as [|[|k]]; [| | lia]; eexists; split; reflexivity.
  - intros h m body Hk. rewrite Hk. eexists; split; reflexivity.
Qed.

(** The theorem at the scripted chain of two tool requests. *)
Lemma chain_witness :
  (exists text,
     fst (process_query Scenario.no_traceback "q"
            (Scenario.start Scenario.chain2_client)) = Return text)
  /\ model_calls (trace (snd (process_query Scenario.no_traceback "q"
                                (Scenario.start Scenario.chain2_client))))
     = 0 + (1 + Nat.min 2 1)
  /\ tool_calls (trace (snd (process_query Scenario.no_traceback "q"
                               (Scenario.start Scenario.chain2_client))))
     = 0 + Nat.min 2 1
  /\ filter is_call_tool
       (trace (snd (process_query Scenario.no_traceback "q"
                      (Scenario.start Scenario.chain2_client))))
     = [ev_call_tool (Some "first") (JDict [])].
Proof.
  destruct (chain_makes_at_most_two_model_calls Scenario.no_traceback "q"
              (Scenario.start Scenario.chain2_client)
              (Scenario.scripted_session (inr []) [inr "r1"; inr "r2"]) 2
              eq_refl eq_refl chain2_is_a_chain)
    as (Hret & Hm & Ht & _).
  split; [exact Hret | split; [exact Hm | split; [exact Ht | reflexivity]]].
Defined.

(** C1 as the specification words it fails at [N = 2]: on the scripted
    chain of two tool requests the query makes two Model Invoker calls and
    one [callTool] call, not three and two, and it returns the note of the
    first tool call alone. *)
Lemma chain_of_two_stops_after_first_follow_up :
  answers_chain Scenario.chain2_client
    (Scenario.scripted_session (inr []) [inr "r1"; inr "r2"]) [] 2
  /\ fst (process_query Scenario.no_traceback "q"
            (Scenario.start Scenario.chain2_client))
     = Return "[Calling tool first with args {}]"
  /\ model_calls (trace (snd (process_query Scenario.no_traceback "q"
                                (Scenario.start Scenario.chain2_client))))
     = 2
  /\ tool_calls (trace (snd (process_query Scenario.no_traceback "q"
                               (Scenario.start Scenario.chain2_client))))
     = 1
  /\ ~ (model_calls (trace (snd (process_query Scenario.no_traceback "q"
                                   (Scenario.start Scenario.chain2_client))))
        = 2 + 1
        /\ tool_calls (trace (snd (process_query Scenario.no_traceback "q"
                                     (Scenario.start Scenario.chain2_client))))
           = 2).
Proof.
  split; [exact chain2_is_a_chain |].
  split; [reflexivity |].
  split; [reflexivity |].
  split; [reflexivity |].
  intros [H _]. discriminate H.
Qed.

(** ** Failures of the collaborators *)

Section Tracking.

Variable s : ClientSession.

Lemma same_remote_refl c : same_remote c c.
Proof. now repeat split. Qed.

Lemma same_remote_trans c1 c2 c3 :
  same_remote c1 c2 -> same_remote c2 c3 -> same_remote c1 c3.
Proof.
  intros (A1 & A2 & A3) (B1 & B2 & B3).
  repeat split; congruence.
Qed.

Lemma all_answered_app bc h0 new1 new2 :
  all_answered s bc (new1 ++ h0)%list new2 ->
  all_answered s bc h0 new1 ->
  all_answered s bc h0 (new2 ++ new1)%list.
Proof.
  induction new2 as [|ev older IH]; simpl; intros H2 H1.
  - exact H1.
  - destruct H2 as [Hev Holder]. split.
    + now rewrite <- app_assoc.
    + now apply IH.
Qed.

Lemma fails_last_returned {A} bc h0 new (a : A) :
  fails_last s bc h0 new (Return a) -> all_answered s bc h0 new.
Proof.
  destruct new as [|ev older]; simpl; [trivial|].
  intros [Holder Hev]. split; [|exact Holder].
  destruct (remote_failure s bc ev (older ++ h0)%list) as [e|]; [|reflexivity].
  discriminate (Hev e eq_refl).
Qed.

Lemma fails_last_raised {A B} bc h0 new (e : exn) :
  fails_last s bc h0 new (@Raise A e) -> fails_last s bc h0 new (@Raise B e).
Proof.
  destruct new as [|ev older]; simpl; [trivial|].
  intros [Holder Hev]. split; [exact Holder|].
  intros e' He'. specialize (Hev e' He'). now injection Hev as ->.
Qed.

(** A failed call inside a trace that fails last is its newest event. *)
Lemma all_answered_inside bc h0 suf ev pre :
  all_answered s bc h0 (suf ++ ev :: pre)%list ->
  remote_failure s bc ev (pre ++ h0)%list = None.
Proof.
  induction suf as [|x suf IH]; simpl; intros [H1 H2].
  - exact H1.
  - now apply IH.
Qed.

Lemma fails_last_split {A} bc h0 suf ev pre (r : outcome A) e :
  fails_last s bc h0 (suf ++ ev :: pre)%list r ->
  remote_failure s bc ev (pre ++ h0)%list = Some e ->
  suf = [] /\ r = Raise e.
Proof.
  destruct suf as [|x suf]; simpl; intros [Holder Hev] Hf.
  - split; [reflexivity | now apply Hev].
  - apply all_answered_inside in Holder. congruence.
Qed.

Lemma tracked_ret {A} (a : A) : tracked s (ret a).
Proof.
  intros w r w' H. injection H as <- <-.
  split; [apply same_remote_refl|]. now exists [].
Qed.

Lemma tracked_raise {A} (e : exn) : tracked s (@raise A e).
Proof.
  intros w r w' H. injection H as <- <-.
  split; [apply same_remote_refl|]. now exists [].
Qed.

Lemma tracked_print line : tracked s (print line).
Proof.
  intros w r w' H. injection H as <- <-.
  split; [apply same_remote_refl|]. now exists [].
Qed.

Lemma tracked_bind {A B} (m : M A) (f : A -> M B) :
  tracked s m -> (forall a, tracked s (f a)) -> tracked s (bind m f).
Proof.
  intros Hm Hf w r w' H. unfold bind in H.
  destruct (m w) as [[a|e] w1] eqn:E1.
  - destruct (Hm _ _ _ E1) as (S1 & new1 & T1 & F1).
    destruct (Hf a _ _ _ H) as (S2 & new2 & T2 & F2).
    split; [eapply same_remote_trans; eassumption|].
    exists (new2 ++ new1)%list. split.
    + now rewrite T2, T1, app_assoc.
    + pose proof (fails_last_returned _ _ _ _ F1) as A1.
      destruct S1 as (_ & Hbc & _). rewrite Hbc, T1 in F2.
      destruct new2 as [|ev2 older2]; simpl.
      * destruct new1 as [|ev1 older1]; simpl; [trivial|].
        destruct A1 as [Hev1 Holder1]. split; [exact Holder1|].
        intros e He. simpl in Hev1. congruence.
      * destruct F2 as [Holder2 Hev2]. split.
        -- now apply all_answered_app.
        -- intros e He. apply Hev2. now rewrite app_assoc.
  - injection H as <- <-.
    destruct (Hm _ _ _ E1) as (S1 & new1 & T1 & F1).
    split; [exact S1|]. exists new1.
    split; [exact T1 | exact (@fails_last_raised A B _ _ _ _ F1)].
Qed.

Lemma tracked_session_list_tools : tracked s (session_list_tools s).
Proof.
  intros w r w' H.
  unfold session_list_tools, bind, get_trace, record, lift in H. simpl in H.
  split.
  - destruct (list_tools s (trace w)); injection H as <- <-;
      apply same_remote_refl.
  - exists [ev_list_tools]. split.
    + destruct (list_tools s (trace w)); now injection H as <- <-.
    + simpl. split; [trivial|]. intros e He.
      destruct (list_tools s (trace w)); [|discriminate].
      injection H as <- <-. congruence.
Qed.

Lemma tracked_session_call_tool tool_name tool_args :
  tracked s (session_call_tool s tool_name tool_args).
Proof.
  intros w r w' H.
  unfold session_call_tool, bind, get_trace, record, lift in H. simpl in H.
  split.
  - destruct (call_tool s (trace w) tool_name tool_args);
      injection H as <- <-; apply same_remote_refl.
  - exists [ev_call_tool tool_name tool_args]. split.
    + destruct (call_tool s (trace w) tool_name tool_args);
        now injection H as <- <-.
    + simpl. split; [trivial|]. intros e He.
      destruct (call_tool s (trace w) tool_name tool_args); [|discriminate].
      injection H as <- <-. congruence.
Qed.

(** The model call: nothing is sent when the client is latched; otherwise
    one call is recorded, and a failure comes out as [bedrock_error]. *)
Lemma tracked_invoke_bedrock_claude msgs tls :
  tracked s (_invoke_bedrock_claude msgs tls).
Proof.
  intros w r w' H.
  unfold _invoke_bedrock_claude, bind, get_self in H. simpl in H.
  destruct (bedrock_available (self w)); simpl in H.
  - unfold try_except_ClientError, client_invoke_model, bind, get_self,
      get_trace, record, lift in H. simpl in H.
    destruct (invoke_model (bedrock_client (self w)) (trace w)
                (claude_model_id (self w)) (request_body_of msgs tls))
      as [e|reply] eqn:E; simpl in H.
    + assert (Hout : r = Raise (bedrock_error e)
                     /\ same_remote (self w) (self w')
                     /\ trace w'
                        = ev_invoke_model (claude_model_id (self w))
                            (request_body_of msgs tls) :: trace w).
      { destruct e as [code message str_e | str_e | str_e]; simpl in H.
        - unfold bind, raise in H.
          match type of H with
          | context [if ?latch then _ else _] => destruct latch
          end;
            unfold bind, set_bedrock_unavailable, print, ret in H;
            simpl in H; injection H as <- <-;
            (split; [reflexivity | split; [now repeat split | reflexivity]]).
        - injection H as <- <-.
          split; [reflexivity | split; [now repeat split | reflexivity]].
        - injection H as <- <-.
          split; [reflexivity | split; [now repeat split | reflexivity]]. }
      destruct Hout as (-> & Hsame & Htr).
      split; [exact Hsame|].
      exists [ev_invoke_model (claude_model_id (self w))
                (request_body_of msgs tls)].
      split; [exact Htr|]. simpl. split; [trivial|].
      intros e' He'. rewrite E in He'. congruence.
    + unfold ret in H. injection H as <- <-.
      split; [apply same_remote_refl|].
      exists [ev_invoke_model (claude_model_id (self w))
                (request_body_of msgs tls)].
      split; [reflexivity|]. simpl. split; [trivial|].
      intros e' He'. rewrite E in He'. discriminate.
  - unfold raise in H. injection H as <- <-.
    split; [apply same_remote_refl|]. now exists [].
Qed.

Lemma tracked_process_block tls b l : tracked s (process_block s tls b l).
Proof.
  unfold process_block.
  destruct (Py.eq_opt_string (cb_type b) "text"); [apply tracked_ret|].
  destruct (Py.eq_opt_string (cb_type b) "tool_use"); [|apply tracked_ret].
  apply tracked_bind; [apply tracked_print | intros _].
  apply tracked_bind; [apply tracked_session_call_tool | intros result].
  apply tracked_bind; [apply tracked_print | intros _].
  apply tracked_bind; [apply tracked_invoke_bedrock_claude | intros reply].
  apply tracked_ret.
Qed.

Lemma tracked_process_blocks tls bs : forall l,
  tracked s (process_blocks s tls bs l).
Proof.
  induction bs as [|b bs IH]; intros l; simpl.
  - apply tracked_ret.
  - apply tracked_bind; [apply tracked_process_block | exact IH].
Qed.

Lemma tracked_process_query_body query :
  tracked s (process_query_body s query).
Proof.
  unfold process_query_body.
  apply tracked_bind; [apply tracked_session_list_tools | intros response].
  apply tracked_bind; [apply tracked_print | intros _].
  apply tracked_bind; [apply tracked_invoke_bedrock_claude | intros reply].
  apply tracked_bind; [apply tracked_process_blocks | intros l].
  apply tracked_ret.
Qed.

End Tracking.

(** ** Errors at the query boundary *)

Section QueryBoundary.

Variable format_exc : exn -> string.

(** With a session, the query is the [try] body with its handler. *)
Lemma process_query_with_session query w s :
  session (self w) = Some s ->
  process_query format_exc query w
  = match process_query_body s query w with
    | (Return text, w') => (Return text, w')
    | (Raise e, w') =>
        if is_Exception e then (Return (error_text format_exc e), w')
        else (Raise e, w')
    end.
Proof.
  intros Hs. unfold process_query, bind, get_self. simpl. rewrite Hs.
  unfold try_except, ret.
  now destruct (process_query_body s query w) as [[text|e] w'].
Qed.

Lemma process_query_without_session query w :
  session (self w) = None ->
  process_query format_exc query w = (Return not_connected, w).
Proof.
  intros Hs. unfold process_query, bind, get_self. simpl. now rewrite Hs.
Qed.

(** The handler neither records nor forgets a call. *)
Lemma process_query_trace query w s :
  session (self w) = Some s ->
  trace (snd (process_query format_exc query w))
  = trace (snd (process_query_body s query w)).
Proof.
  intros Hs. rewrite (process_query_with_session query w s Hs).
  destruct (process_query_body s query w) as [[text|e] w']; [reflexivity|].
  now destruct (is_Exception e).
Qed.

Lemma not_base_is_Exception e :
  (forall str_e, e <> BaseException str_e) -> is_Exception e = true.
Proof.
  destruct e as [code message s | s | s]; intros H; try reflexivity.
  now destruct (H s).
Qed.

(** What the boundary makes of the body's outcome: a returned text is
    returned, an [Exception] becomes the error text, anything else is
    raised again. *)
Lemma process_query_of_body query w s :
  session (self w) = Some s ->
  (forall text,
     fst (process_query_body s query w) = Return text ->
     fst (process_query format_exc query w) = Return text)
  /\ (forall e,
        fst (process_query_body s query w) = Raise e ->
        (forall str_e, e <> BaseException str_e) ->
        fst (process_query format_exc query w)
        = Return ("Error processing query: " ++ str e ++ Py.nl ++ Py.nl
                  ++ format_exc e))
  /\ (forall str_e,
        fst (process_query_body s query w) = Raise (BaseException str_e) ->
        fst (process_query format_exc query w)
        = Raise (BaseException str_e)).
Proof.
  intros Hs. rewrite (process_query_with_session query w s Hs).
  destruct (process_query_body s query w) as [[text|e] w']; simpl.
  - split; [| split]; [now intros t H | discriminate | discriminate].
  - split; [discriminate | split].
    + intros e' H Hne. injection H as <-.
      now rewrite (not_base_is_Exception e Hne).
    + intros str_e H. injection H as ->. reflexivity.
Qed.

(** The calls of a query: the trace grows by them, and a call that failed is
    the last one, its exception being what the body raised. *)
Lemma process_query_calls query w s suf ev pre e :
  session (self w) = Some s ->
  trace (snd (process_query format_exc query w))
  = (suf ++ ev :: pre ++ trace w)%list ->
  remote_failure s (bedrock_client (self w)) ev (pre ++ trace w)%list
  = Some e ->
  suf = [] /\ fst (process_query_body s query w) = Raise e.
Proof.
  intros Hs Htr Hfail.
  rewrite (process_query_trace query w s Hs) in Htr.
  destruct (process_query_body s query w) as [r w'] eqn:E.
  destruct (tracked_process_query_body s query w r w' E)
    as (_ & new & Hnew & Hlast).
  simpl in Htr. rewrite Hnew in Htr.
  change (suf ++ ev :: pre ++ trace w)%list
    with (suf ++ (ev :: pre) ++ trace w)%list in Htr.
  rewrite app_assoc in Htr. apply app_inv_tail in Htr. subst new.
  simpl. eapply fails_last_split; eassumption.
Qed.

(** C6, as the code has it: when a [callTool] of the query raises [e], that
    call is the last remote call of the query (in particular no Model
    Invoker call follows it); if [e] derives from [Exception] the query
    returns the error string made of [str(e)], and if it does not (a
    cancellation, an interrupt) the query raises [e] to its caller. *)
Theorem failed_tool_call_ends_query
    query w s suf pre tool_name tool_args e :
  session (self w) = Some s ->
  trace (snd (process_query format_exc query w))
  = (suf ++ ev_call_tool tool_name tool_args :: pre ++ trace w)%list ->
  call_tool s (pre ++ trace w)%list tool_name tool_args = inl e ->
  suf = []
  /\ model_calls suf = 0
  /\ ((forall str_e, e <> BaseException str_e) ->
      fst (process_query format_exc query w)
      = Return ("Error processing query: " ++ str e ++ Py.nl ++ Py.nl
                ++ format_exc e))
  /\ (forall str_e,
        e = BaseException str_e ->
        fst (process_query format_exc query w) = Raise e).
Proof.
  intros Hs Htr Hc.
  destruct (process_query_calls query w s suf
              (ev_call_tool tool_name tool_args) pre e Hs Htr)
    as [-> Hbody].
  { simpl. now rewrite Hc. }
  destruct (process_query_of_body query w s Hs) as (_ & Hcaught & Hpassed).
  split; [reflexivity | split; [reflexivity | split]].
  - intros Hne. now apply Hcaught.
  - intros str_e ->. now apply Hpassed.
Qed.

(** C5, as the code has it: [process_query] raises nothing that derives
    from [Exception].  Without a session it returns the not-connected
    message and calls nothing.  With a session, a text the body returns is
    returned; an exception the body raises is returned as the error string
    when it derives from [Exception] and raised again when it does not;
    in particular when the catalog fetch, a model call or a tool call of the
    query fails, what that call brought in is returned as the error string
    or, if it is no [Exception], raised to the caller. *)
Theorem process_query_raises_no_exception query w :
  (forall e,
     fst (process_query format_exc query w) = Raise e ->
     exists str_e, e = BaseException str_e)
  /\ (session (self w) = None ->
      process_query format_exc query w
      = (Return "Not connected to server. Please connect first.", w))
  /\ (forall s,
        session (self w) = Some s ->
        (forall text,
           fst (process_query_body s query w) = Return text ->
           fst (process_query format_exc query w) = Return text)
        /\ (forall e,
              fst (process_query_body s query w) = Raise e ->
              (forall str_e, e <> BaseException str_e) ->
              fst (process_query format_exc query w)
              = Return ("Error processing query: " ++ str e ++ Py.nl ++ Py.nl
                        ++ format_exc e))
        /\ (forall str_e,
              fst (process_query_body s query w) = Raise (BaseException str_e)
              ->
              fst (process_query format_exc query w)
              = Raise (BaseException str_e))
        /\ (forall suf ev pre e,
              trace (snd (process_query format_exc query w))
              = (suf ++ ev :: pre ++ trace w)%list ->
              remote_failure s (bedrock_client (self w)) ev
                (pre ++ trace w)%list
              = Some e ->
              ((forall str_e, e <> BaseException str_e) ->
               fst (process_query format_exc query w)
               = Return ("Error processing query: " ++ str e ++ Py.nl
                         ++ Py.nl ++ format_exc e))
              /\ (forall str_e,
                    e = BaseException str_e ->
                    fst (process_query format_exc query w) = Raise e))).
Proof.
  split; [| split].
  - destruct (session (self w)) as [s|] eqn:Hs.
    + rewrite (process_query_with_session query w s Hs).
      destruct (process_query_body s query w) as [[text|e0] w']; simpl;
        [discriminate|].
      destruct e0 as [code message str_e | str_e | str_e]; simpl;
        try discriminate.
      intros e H. injection H as <-. now exists str_e.
    + rewrite (process_query_without_session query w Hs). discriminate.
  - intros Hs. now apply process_query_without_session.
  - intros s Hs.
    destruct (process_query_of_body query w s Hs)
      as (Hret & Hcaught & Hpassed).
    split; [exact Hret | split; [exact Hcaught | split; [exact Hpassed|]]].
    intros suf ev pre e Htr Hfail.
    destruct (process_query_calls query w s suf ev pre e Hs Htr Hfail)
      as [_ Hbody].
    split.
    + intros Hne. now apply Hcaught.
    + intros str_e ->. now apply Hpassed.
Qed.

End QueryBoundary.

(** C6 at a query whose tool call raises an [Exception]. *)
Lemma failed_tool_call_witness :
  fst (process_query Scenario.no_traceback "q"
         (Scenario.start Scenario.failing_tool_client))
  = Return ("Error processing query: " ++ "tool exploded" ++ Py.nl
            ++ Py.nl ++ "").
Proof.
  refine (proj1 (proj2 (proj2
            (failed_tool_call_ends_query Scenario.no_traceback "q"
               (Scenario.start Scenario.failing_tool_client)
               (Scenario.scripted_session (inr [])
                  [inl (Exception "tool exploded")])
               []
               [ ev_invoke_model "us.anthropic.claude-3-7-sonnet-20250219-v1:0"
                   (request_body_of (initial_messages "q") []);
                 ev_list_tools ]
               (Some "boom") (JDict []) (Exception "tool exploded")
               eq_refl eq_refl eq_refl))) _).
  intros str_e. discriminate.
Defined.

(** C6 as the specification words it fails: the tool call of this query is
    cancelled, and the query, instead of returning an error string, raises
    the cancellation to its caller. *)
Lemma cancelled_tool_call_is_raised :
  call_tool (Scenario.scripted_session (inr [])
               [inl (BaseException "cancelled")])
    [ ev_invoke_model "us.anthropic.claude-3-7-sonnet-20250219-v1:0"
        (request_body_of (initial_messages "q") []);
      ev_list_tools ]
    (Some "slow") (JDict [])
  = inl (BaseException "cancelled")
  /\ fst (process_query Scenario.no_traceback "q"
            (Scenario.start Scenario.cancelled_tool_client))
     = Raise (BaseException "cancelled")
  /\ forall text,
       fst (process_query Scenario.no_traceback "q"
              (Scenario.start Scenario.cancelled_tool_client))
       <> Return text.
Proof.
  split; [reflexivity | split; [reflexivity | discriminate]].
Qed.

(** C5 at the query whose tool call raises an [Exception]: the failure is
    returned as text. *)
Lemma raises_no_exception_witness :
  fst (process_query Scenario.no_traceback "q"
         (Scenario.start Scenario.failing_tool_client))
  = Return ("Error processing query: " ++ "tool exploded" ++ Py.nl ++ Py.nl
            ++ "").
Proof.
  pose proof (process_query_raises_no_exception Scenario.no_traceback "q"
                (Scenario.start Scenario.failing_tool_client))
    as (_ & _ & H).
  destruct (H (Scenario.scripted_session (inr [])
                 [inl (Exception "tool exploded")]) eq_refl)
    as (_ & _ & _ & Hfail).
  refine (proj1 (Hfail [] (ev_call_tool (Some "boom") (JDict []))
                   [ ev_invoke_model
                       "us.anthropic.claude-3-7-sonnet-20250219-v1:0"
                       (request_body_of (initial_messages "q") []);
                     ev_list_tools ]
                   (Exception "tool exploded") eq_refl eq_refl) _).
  intros str_e. discriminate.
Defined.

(** C5 as the specification words it fails: the catalog fetch of this query
    is interrupted from the keyboard, and the query raises the interrupt to
    its caller instead of returning a string. *)
Lemma interrupted_query_raises :
  fst (process_query Scenario.no_traceback "q"
         (Scenario.start Scenario.interrupted_client))
  = Raise (BaseException "KeyboardInterrupt")
  /\ forall text,
       fst (process_query Scenario.no_traceback "q"
              (Scenario.start Scenario.interrupted_client))
       <> Return text.
Proof.
  split; [reflexivity | discriminate].
Qed.

(** ** The latched client *)

Section Latch.

Variable format_exc : exn -> string.


(** One query on a latched client. *)
Lemma latched_query query w :
  bedrock_available (self w) = false ->
  process_query format_exc query w
  = match session (self w) with
    | None => (Return not_connected, w)
    | Some s =>
        match list_tools s (trace w) with
        | inr _ =>
            (Return (error_text format_exc bedrock_unavailable_error),
             logged [ev_list_tools]
               ["Sending request to Claude via AWS Bedrock..."] w)
        | inl e =>
            (if is_Exception e then Return (error_text format_exc e)
             else Raise e,
             logged [ev_list_tools] [] w)
        end
    end.
Proof.
  intros Hav.
  destruct (session (self w)) as [s|] eqn:Hs.
  - rewrite (process_query_with_session format_exc query w s Hs).
    unfold process_query_body, session_list_tools, bind, get_trace, record,
      lift, logged. simpl.
    destruct (list_tools s (trace w)) as [e|catalog]; simpl.
    + rewrite app_nil_r. now destruct (is_Exception e).
    + unfold _invoke_bedrock_claude, bind, get_self. simpl.
      now rewrite Hav.
  - now apply process_query_without_session.
Qed.

Lemma latched_query_world query w :
  bedrock_available (self w) = false ->
  self (snd (process_query format_exc query w)) = self w
  /\ trace (snd (process_query format_exc query w))
     = match session (self w) with
       | None => trace w
       | Some _ => ev_list_tools :: trace w
       end.
Proof.
  intros Hav. rewrite (latched_query query w Hav).
  destruct (session (self w)) as [s|]; [| now split].
  now destruct (list_tools s (trace w)).
Qed.

Lemma latch_stays queries : forall w,
  bedrock_available (self w) = false ->
  bedrock_available (self (after_queries format_exc queries w)) = false.
Proof.
  induction queries as [|query rest IH]; intros w Hav; simpl.
  - exact Hav.
  - apply IH. now rewrite (proj1 (latched_query_world query w Hav)).
Qed.

Lemma session_stays queries : forall w,
  bedrock_available (self w) = false ->
  session (self (after_queries format_exc queries w)) = session (self w).
Proof.
  induction queries as [|query rest IH]; intros w Hav; simpl.
  - reflexivity.
  - rewrite IH.
    + now rewrite (proj1 (latched_query_world query w Hav)).
    + now rewrite (proj1 (latched_query_world query w Hav)).
Qed.

(** C7, as the code has it: once the client is latched, every later query
    (after any run of queries in between) makes no Model Invoker call and no
    [callTool] call and leaves the client latched.  Without a session it
    returns the not-connected message and calls nothing.  With a session it
    still fetches the tool catalog, its one remote call: when the fetch is
    answered the query returns the explanation of the latch as an error
    string; when the fetch raises, the query returns the error string of
    that exception, or raises it if it is no [Exception]. *)
Theorem latched_client_skips_the_model queries query w :
  bedrock_available (self w) = false ->
  bedrock_available
    (self (snd (process_query format_exc query
                  (after_queries format_exc queries w))))
  = false
  /\ model_calls
       (trace (snd (process_query format_exc query
                      (after_queries format_exc queries w))))
     = model_calls (trace (after_queries format_exc queries w))
  /\ tool_calls
       (trace (snd (process_query format_exc query
                      (after_queries format_exc queries w))))
     = tool_calls (trace (after_queries format_exc queries w))
  /\ match session (self w) with
     | None =>
         process_query format_exc query (after_queries format_exc queries w)
         = (Return "Not connected to server. Please connect first.",
            after_queries format_exc queries w)
     | Some s =>
         trace (snd (process_query format_exc query
                       (after_queries format_exc queries w)))
         = ev_list_tools :: trace (after_queries format_exc queries w)
         /\ (forall catalog,
               list_tools s (trace (after_queries format_exc queries w))
               = inr catalog ->
               fst (process_query format_exc query
                      (after_queries format_exc queries w))
               = Return
                   ("Error processing query: "
                    ++ "AWS Bedrock authentication failed. Please check your credentials."
                    ++ Py.nl ++ Py.nl
                    ++ format_exc
                         (Exception
                            "AWS Bedrock authentication failed. Please check your credentials.")))
         /\ (forall e,
               list_tools s (trace (after_queries format_exc queries w))
               = inl e ->
               (forall str_e, e <> BaseException str_e) ->
               fst (process_query format_exc query
                      (after_queries format_exc queries w))
               = Return ("Error processing query: " ++ str e ++ Py.nl
                         ++ Py.nl ++ format_exc e))
         /\ (forall str_e,
               list_tools s (trace (after_queries format_exc queries w))
               = inl (BaseException str_e) ->
               fst (process_query format_exc query
                      (after_queries format_exc queries w))
               = Raise (BaseException str_e))
     end.
Proof.
  intros Hav.
  pose proof (latch_stays queries w Hav) as Hlatched.
  pose proof (session_stays queries w Hav) as Hsess.
  destruct (latched_query_world query _ Hlatched) as [Hself Htrace].
  rewrite Hself, Htrace, Hsess.
  rewrite (latched_query query _ Hlatched), Hsess.
  split; [exact Hlatched|].
  destruct (session (self w)) as [s|]; simpl.
  - unfold model_calls, tool_calls. simpl.
    split; [reflexivity | split; [reflexivity | split; [reflexivity|]]].
    split; [| split].
    + intros catalog Hc. now rewrite Hc.
    + intros e He Hne. rewrite He. simpl.
      now rewrite (not_base_is_Exception e Hne).
    + intros str_e He. now rewrite He.
  - split; [reflexivity | split; [reflexivity | reflexivity]].
Qed.

End Latch.

(** The theorem at the latched client of the text-around-a-tool scenario,
    with one query already answered in the latched state. *)
Lemma latched_client_witness :
  fst (process_query Scenario.no_traceback "second"
         (after_queries Scenario.no_traceback ["first"]
            (Scenario.start (Scenario.latched Scenario.around_client))))
  = Return
      ("Error processing query: "
       ++ "AWS Bedrock authentication failed. Please check your credentials."
       ++ Py.nl ++ Py.nl ++ "").
Proof.
  pose proof (latched_client_skips_the_model Scenario.no_traceback ["first"]
                "second"
                (Scenario.start (Scenario.latched Scenario.around_client))
                eq_refl) as (_ & _ & _ & H).
  exact (proj1 (proj2 H) [] eq_refl).
Defined.

(** C7 as the specification words it fails: a latched client with a session
    still makes a remote call, the catalog fetch, before it answers. *)
Lemma latched_client_still_fetches_the_catalog :
  bedrock_available
    (self (Scenario.start (Scenario.latched Scenario.around_client))) = false
  /\ trace (snd (process_query Scenario.no_traceback "q"
                   (Scenario.start (Scenario.latched Scenario.around_client))))
     = [ev_list_tools]
  /\ trace (snd (process_query Scenario.no_traceback "q"
                   (Scenario.start (Scenario.latched Scenario.around_client))))
     <> trace (Scenario.start (Scenario.latched Scenario.around_client)).
Proof.
  split; [reflexivity | split; [reflexivity | discriminate]].
Qed.

(** ** The transcript invariant *)

Section Transcript.

Lemma tool_turns_ok prev tool_name tool_args id result :
  transcript_ok_from prev (tool_turns tool_name tool_args id result) = true.
Proof.
  unfold tool_turns. simpl. unfold turn_ok, requests_tool. simpl.
  now rewrite String.eqb_refl.
Qed.

(** Appending the two turns of an answered tool request keeps the
    invariant. *)
Lemma transcript_ok_extended ms : forall prev tool_name tool_args id result,
  transcript_ok_from prev ms = true ->
  transcript_ok_from prev (ms ++ tool_turns tool_name tool_args id result)
  = true.
Proof.
  induction ms as [|m ms IH]; intros prev tool_name tool_args id result H.
  - apply tool_turns_ok.
  - simpl in *. apply andb_true_iff in H as [Hm Hms].
    rewrite Hm. simpl. now apply IH.
Qed.

(** A model call records at most its own request. *)
Lemma invoke_sends msgs tls w :
  trace (snd (_invoke_bedrock_claude msgs tls w)) = trace w
  \/ trace (snd (_invoke_bedrock_claude msgs tls w))
     = ev_invoke_model (claude_model_id (self w)) (request_body_of msgs tls)
       :: trace w.
Proof.
  unfold _invoke_bedrock_claude, bind, get_self. simpl.
  destruct (bedrock_available (self w)); simpl; [|now left].
  right.
  unfold try_except_ClientError, client_invoke_model, bind, get_self, get_trace, record,
    lift. simpl.
  destruct (invoke_model (bedrock_client (self w)) (trace w)
              (claude_model_id (self w)) (request_body_of msgs tls))
    as [[code message str_e | str_e | str_e] | reply]; simpl; try reflexivity.
  unfold bind, raise.
  match goal with
  | |- context [if ?latch then _ else _] => destruct latch
  end; reflexivity.
Qed.

Variable s : ClientSession.
Variable tls : list tool_spec.

(** One step of the loop: the transcript is unchanged or grows by the two
    turns of one answered tool request; the invariant is kept, and the
    request sent in the step carries a transcript that satisfies it. *)
Lemma process_block_transcript b l w :
  transcript_ok (l_messages l) = true ->
  exists new,
    trace (snd (process_block s tls b l w)) = (new ++ trace w)%list
    /\ forallb sent_ok new = true
    /\ forall l',
         fst (process_block s tls b l w) = Return l' ->
         transcript_ok (l_messages l') = true
         /\ (l_messages l' = l_messages l
             \/ exists result,
                  l_messages l' = extended l b result).
Proof.
  intros Hok. unfold process_block.
  destruct (Py.eq_opt_string (cb_type b) "text").
  { exists []. simpl. split; [reflexivity | split; [reflexivity|]].
    intros l' H. injection H as <-. split; [exact Hok | now left]. }
  destruct (Py.eq_opt_string (cb_type b) "tool_use").
  2:{ exists []. simpl. split; [reflexivity | split; [reflexivity|]].
      intros l' H. injection H as <-. split; [exact Hok | now left]. }
  unfold bind at 1. unfold print at 1.
  unfold bind at 1. unfold session_call_tool, bind, get_trace, record, lift.
  simpl.
  destruct (call_tool s (trace w) (cb_name b)
              (Py.get_or (JDict []) (cb_input b))) as [e|result]; simpl.
  { exists [ev_call_tool (cb_name b) (Py.get_or (JDict []) (cb_input b))].
    split; [reflexivity | split; [reflexivity | discriminate]]. }
  match goal with
  | |- context [_invoke_bedrock_claude ?msgs tls ?w1] =>
      pose proof (invoke_sends msgs tls w1) as Hsend;
      assert (Hext : transcript_ok msgs = true)
        by (apply transcript_ok_extended; exact Hok);
      destruct (_invoke_bedrock_claude msgs tls w1) as [[reply|e] w2]
  end; simpl in *.
  - destruct Hsend as [-> | ->].
    + exists [ev_call_tool (cb_name b) (Py.get_or (JDict []) (cb_input b))].
      split; [reflexivity | split; [reflexivity|]].
      intros l' H. injection H as <-. simpl.
      split; [exact Hext | right; now exists result].
    + eexists [_; _]. split; [reflexivity|]. split.
      * simpl. now rewrite Hext.
      * intros l' H. injection H as <-. simpl.
        split; [exact Hext | right; now exists result].
  - destruct Hsend as [-> | ->].
    + exists [ev_call_tool (cb_name b) (Py.get_or (JDict []) (cb_input b))].
      split; [reflexivity | split; [reflexivity | discriminate]].
    + eexists [_; _]. split; [reflexivity|]. split.
      * simpl. now rewrite Hext.
      * discriminate.
Qed.

Lemma process_blocks_transcript bs : forall l w,
  transcript_ok (l_messages l) = true ->
  exists new,
    trace (snd (process_blocks s tls bs l w)) = (new ++ trace w)%list
    /\ forallb sent_ok new = true.
Proof.
  induction bs as [|b bs IH]; intros l w Hok; simpl.
  - now exists [].
  - destruct (process_block_transcript b l w Hok) as (new1 & T1 & S1 & K1).
    unfold bind.
    destruct (process_block s tls b l w) as [[l1|e] w1]; simpl in *.
    + destruct (K1 l1 eq_refl) as [Hok1 _].
      destruct (IH l1 w1 Hok1) as (new2 & T2 & S2).
      exists (new2 ++ new1)%list. split.
      * now rewrite T2, T1, app_assoc.
      * rewrite forallb_app. now rewrite S2, S1.
    + now exists new1.
Qed.

End Transcript.

Section TranscriptOfQuery.

Variable format_exc : exn -> string.

(** C8: each step of the loop keeps the invariant of the transcript: the
    step leaves the transcript alone or appends the assistant turn with the
    tool request and, right after it, the user turn with the tool result
    that bears the same identifier; and in every query, every transcript
    sent to the model satisfies the invariant (each tool result sits in a
    user turn right after an assistant turn that holds a tool request with
    the result's identifier). *)
Theorem tool_results_follow_their_requests :
  (forall s tls b l w l',
     transcript_ok (l_messages l) = true ->
     fst (process_block s tls b l w) = Return l' ->
     transcript_ok (l_messages l') = true
     /\ (l_messages l' = l_messages l
         \/ exists result,
              l_messages l'
              = (l_messages l
                   ++ [ {| msg_role := assistant;
                           msg_content :=
                             blocks [tool_use (cb_name b)
                                       (Py.get_or (JDict []) (cb_input b))
                                       (tool_id_of b (l_tool_results l))] |};
                        {| msg_role := user;
                           msg_content :=
                             blocks [tool_result result
                                       (tool_id_of b (l_tool_results l))] |}
                      ])%list))
  /\ (forall query w,
        exists new,
          trace (snd (process_query format_exc query w))
          = (new ++ trace w)%list
          /\ forallb sent_ok new = true).
Proof.
  split.
  - intros s tls b l w l' Hok Hret.
    destruct (process_block_transcript s tls b l w Hok) as (_ & _ & _ & K).
    exact (K l' Hret).
  - intros query w.
    destruct (session (self w)) as [s|] eqn:Hs.
    2:{ rewrite (process_query_without_session format_exc query w Hs).
        now exists []. }
    rewrite (process_query_trace format_exc query w s Hs).
    unfold process_query_body.
    unfold bind at 1.
    unfold session_list_tools, bind, get_trace, record, lift. simpl.
    destruct (list_tools s (trace w)) as [e|catalog]; simpl.
    { now exists [ev_list_tools]. }
    match goal with
    | |- context [_invoke_bedrock_claude ?msgs ?tls ?w1] =>
        pose proof (invoke_sends msgs tls w1) as Hsend;
        destruct (_invoke_bedrock_claude msgs tls w1) as [[reply|e] w2]
    end; simpl in *.
    + match goal with
      | |- context [process_blocks s ?tls ?bs ?l w2] =>
          destruct (process_blocks_transcript s tls bs l w2 eq_refl)
            as (new & T & S);
          destruct (process_blocks s tls bs l w2) as [[l'|e] w3]
      end; simpl in *;
        (destruct Hsend as [E | E]; rewrite E in T;
         [ exists (new ++ [ev_list_tools])%list
         | eexists (new ++ [_; ev_list_tools])%list ];
         (split; [ now rewrite T, <- app_assoc
                 | rewrite forallb_app, S; reflexivity ])).
    + destruct Hsend as [-> | ->].
      * now exists [ev_list_tools].
      * eexists [_; _]. split; reflexivity.
Qed.

End TranscriptOfQuery.

(** C8 at the text-around-a-tool scenario: the step over the tool request
    keeps the invariant and appends the two turns. *)
Lemma tool_results_witness :
  transcript_ok
    (initial_messages "q"
       ++ tool_turns (Some "lookup") (JDict []) "tool_0" "r")%list
  = true.
Proof.
  pose proof (tool_results_follow_their_requests Scenario.no_traceback)
    as [Hstep _].
  refine (proj1 (Hstep (Scenario.scripted_session (inr []) [inr "r"]) []
                   (Scenario.tool_use_block None "lookup" (JDict []))
                   (initial_locals "q"
                      (Scenario.reply
                         [Scenario.tool_use_block None "lookup" (JDict [])]))
                   (logged
                      [ev_invoke_model
                         "us.anthropic.claude-3-7-sonnet-20250219-v1:0"
                         (request_body_of (initial_messages "q") []);
                       ev_list_tools] []
                      (Scenario.start Scenario.around_client))
                   _ eq_refl eq_refl)).
Defined.

(** ** The fallback identifier *)

Section FallbackId.

Variable s : ClientSession.
Variable tls : list tool_spec.

(** No step of the loop touches [tool_results]. *)
Lemma process_block_tool_results b l w l' :
  fst (process_block s tls b l w) = Return l' ->
  l_tool_results l' = l_tool_results l.
Proof.
  unfold process_block.
  destruct (Py.eq_opt_string (cb_type b) "text").
  { simpl. intros H. now injection H as <-. }
  destruct (Py.eq_opt_string (cb_type b) "tool_use").
  2:{ simpl. intros H. now injection H as <-. }
  unfold bind at 1. unfold print at 1.
  unfold bind at 1. unfold session_call_tool, bind, get_trace, record, lift.
  simpl.
  destruct (call_tool s (trace w) (cb_name b)
              (Py.get_or (JDict []) (cb_input b))) as [e|result]; simpl.
  { discriminate. }
  match goal with
  | |- context [_invoke_bedrock_claude ?msgs tls ?w1] =>
      destruct (_invoke_bedrock_claude msgs tls w1) as [[reply|e] w2]
  end; simpl; intros H; [now injection H as <- | discriminate].
Qed.

Lemma process_blocks_tool_results bs : forall l w l',
  fst (process_blocks s tls bs l w) = Return l' ->
  l_tool_results l' = l_tool_results l.
Proof.
  induction bs as [|b bs IH]; intros l w l'; simpl.
  - intros H. now injection H as <-.
  - unfold bind.
    pose proof (process_block_tool_results b l w) as Hb.
    destruct (process_block s tls b l w) as [[l1|e] w1]; simpl in *.
    + intros H. rewrite (IH _ _ _ H). now apply Hb.
    + discriminate.
Qed.

(** A tool request whose step returns was answered, and its two turns were
    appended. *)
Lemma process_block_tool_use_returns b l w l' :
  is_tool_use b = true ->
  fst (process_block s tls b l w) = Return l' ->
  exists result,
    call_tool s (trace w) (cb_name b) (Py.get_or (JDict []) (cb_input b))
    = inr result
    /\ l_messages l' = extended l b result.
Proof.
  intros Hb.
  assert (Ht : Py.eq_opt_string (cb_type b) "text" = false).
  { unfold is_tool_use, Py.eq_opt_string in *.
    destruct (cb_type b) as [t|]; [|reflexivity].
    apply String.eqb_eq in Hb. now subst t. }
  unfold process_block. rewrite Ht. unfold is_tool_use in Hb. rewrite Hb.
  unfold bind at 1. unfold print at 1.
  unfold bind at 1. unfold session_call_tool, bind, get_trace, record, lift.
  simpl.
  destruct (call_tool s (trace w) (cb_name b)
              (Py.get_or (JDict []) (cb_input b))) as [e|result]; simpl.
  { discriminate. }
  match goal with
  | |- context [_invoke_bedrock_claude ?msgs tls ?w1] =>
      destruct (_invoke_bedrock_claude msgs tls w1) as [[reply|e] w2]
  end; simpl; intros H; [| discriminate].
  injection H as <-. now exists result.
Qed.

(** C9, as the code has it: in a query, [tool_results] is empty whenever a
    block of the first reply is reached, so a tool request of the first
    reply without an ["id"] is given the identifier [tool_0]: when its step
    returns, its tool was called, and the assistant turn with the request
    and the user turn with the result that were appended both bear
    [tool_0], whatever number of such requests came before it in the
    reply. *)
Theorem tool_request_without_id_gets_tool_0
    query first_reply pre b w l1 :
  fst (process_blocks s tls pre (initial_locals query first_reply) w)
  = Return l1 ->
  is_tool_use b = true ->
  cb_id b = None ->
  l_tool_results l1 = []
  /\ forall w1 l2,
       fst (process_block s tls b l1 w1) = Return l2 ->
       l_tool_results l2 = []
       /\ exists result,
            call_tool s (trace w1) (cb_name b)
              (Py.get_or (JDict []) (cb_input b))
            = inr result
            /\ l_messages l2
               = (l_messages l1
                    ++ [ {| msg_role := assistant;
                            msg_content :=
                              blocks [tool_use (cb_name b)
                                        (Py.get_or (JDict []) (cb_input b))
                                        "tool_0"] |};
                         {| msg_role := user;
                            msg_content :=
                              blocks [tool_result result "tool_0"] |} ])%list.
Proof.
  intros Hpre Hb Hid.
  pose proof (process_blocks_tool_results pre _ _ _ Hpre) as Hnone.
  simpl in Hnone.
  assert (Htid : tool_id_of b (l_tool_results l1) = "tool_0").
  { unfold tool_id_of. now rewrite Hid, Hnone. }
  split; [exact Hnone |].
  intros w1 l2 Hstep. split.
  - rewrite (process_block_tool_results b l1 w1 l2 Hstep). exact Hnone.
  - destruct (process_block_tool_use_returns b l1 w1 l2 Hb Hstep)
      as (result & Hcall & Hmsgs).
    exists result. split; [exact Hcall |].
    rewrite Hmsgs. unfold extended, tool_turns. now rewrite Htid.
Qed.

End FallbackId.

(** C9 at a first reply with two tool requests without an identifier: when
    the step of the second returns, after the first was answered, the
    transcript holds the turns of both, all four with [tool_0]. *)
Lemma tool_0_witness :
  exists l1 w1 l2 result,
    process_blocks (Scenario.echo_session []) []
      [Scenario.tool_use_block None "first" (JDict [])]
      (initial_locals "q"
         (Scenario.reply
            [ Scenario.tool_use_block None "first" (JDict []);
              Scenario.tool_use_block None "second" (JDict []) ]))
      (logged
         [ev_invoke_model "us.anthropic.claude-3-7-sonnet-20250219-v1:0"
            (request_body_of (initial_messages "q") []);
          ev_list_tools] []
         (Scenario.start
            {| session := Some (Scenario.echo_session []);
               bedrock_client :=
                 Scenario.steady_bedrock
                   (Scenario.reply
                      [ Scenario.tool_use_block None "first" (JDict []);
                        Scenario.tool_use_block None "second" (JDict []) ]);
               claude_model_id :=
                 "us.anthropic.claude-3-7-sonnet-20250219-v1:0";
               bedrock_available := true |}))
    = (Return l1, w1)
    /\ fst (process_block (Scenario.echo_session []) []
              (Scenario.tool_use_block None "second" (JDict [])) l1 w1)
       = Return l2
    /\ l_messages l2
       = [ {| msg_role := user; msg_content := plain "q" |};
           {| msg_role := assistant;
              msg_content :=
                blocks [tool_use (Some "first") (JDict []) "tool_0"] |};
           {| msg_role := user;
              msg_content := blocks [tool_result "first" "tool_0"] |};
           {| msg_role := assistant;
              msg_content :=
                blocks [tool_use (Some "second") (JDict []) "tool_0"] |};
           {| msg_role := user;
              msg_content := blocks [tool_result result "tool_0"] |} ].
Proof.
  eexists _, _, _.
  match goal with
  | |- exists result, ?run = _ /\ _ =>
      let r := eval vm_compute in run in
      match r with
      | (Return ?l1, ?w1) =>
          let r2 := eval vm_compute in
              (process_block (Scenario.echo_session []) []
                 (Scenario.tool_use_block None "second" (JDict [])) l1 w1) in
          match r2 with
          | (Return ?l2, _) =>
              destruct (tool_request_without_id_gets_tool_0
                          (Scenario.echo_session []) [] "q" _
                          [Scenario.tool_use_block None "first" (JDict [])]
                          (Scenario.tool_use_block None "second" (JDict []))
                          _ l1 (f_equal fst (eq_refl : run = (Return l1, w1)))
                          eq_refl eq_refl)
                as (_ & Hstep);
              destruct (Hstep w1 l2 eq_refl) as (_ & result & _ & Hmsgs);
              exists result;
              split; [reflexivity | split; [reflexivity | exact Hmsgs]]
          end
      end
  end.
Defined.

(** C9 as the specification words it fails: on a chain of two tool requests
    without an identifier, the request of the follow-up reply is given no
    identifier at all: the query makes the one tool call of the first reply
    and sends the model nothing but the turns of that request. *)
Lemma idless_follow_up_request_gets_no_identifier :
  invoke_model (bedrock_client Scenario.idless_chain_client)
    [ ev_call_tool (Some "first") (JDict []);
      ev_invoke_model "us.anthropic.claude-3-7-sonnet-20250219-v1:0"
        (request_body_of (initial_messages "q") []);
      ev_list_tools ]
    "us.anthropic.claude-3-7-sonnet-20250219-v1:0"
    (request_body_of
       [ {| msg_role := user; msg_content := plain "q" |};
         {| msg_role := assistant;
            msg_content :=
              blocks [tool_use (Some "first") (JDict []) "tool_0"] |};
         {| msg_role := user;
            msg_content := blocks [tool_result "r1" "tool_0"] |} ] [])
  = inr {| body_content :=
             Some [ {| cb_type := Some "tool_use"; cb_text := None;
                       cb_name := Some "second";
                       cb_input := Some (JDict []); cb_id := None |} ] |}
  /\ trace (snd (process_query Scenario.no_traceback "q"
                   (Scenario.start Scenario.idless_chain_client)))
     = [ ev_invoke_model "us.anthropic.claude-3-7-sonnet-20250219-v1:0"
           {| anthropic_version := "bedrock-2023-05-31";
              max_tokens := 4096;
              messages :=
                [ {| msg_role := user; msg_content := plain "q" |};
                  {| msg_role := assistant;
                     msg_content :=
                       blocks [tool_use (Some "first") (JDict []) "tool_0"] |};
                  {| msg_role := user;
                     msg_content := blocks [tool_result "r1" "tool_0"] |} ];
              tools := None |};
         ev_call_tool (Some "first") (JDict []);
         ev_invoke_model "us.anthropic.claude-3-7-sonnet-20250219-v1:0"
           {| anthropic_version := "bedrock-2023-05-31";
              max_tokens := 4096;
              messages :=
                [ {| msg_role := user; msg_content := plain "q" |} ];
              tools := None |};
         ev_list_tools ]
  /\ fst (process_query Scenario.no_traceback "q"
            (Scenario.start Scenario.idless_chain_client))
     = Return "[Calling tool first with args {}]".
Proof. repeat split. Qed.

(* ================================================================== *)
(** * Properties of the location server *)

Section LocationFacts.

Import LocationManager.

Variable BEARER_TOKEN : option string.
Variable http_get : string -> list (string * string) -> Z -> exchange.
Variable repr : json -> string.

Abbreviation request := (make_location_request BEARER_TOKEN http_get).
Abbreviation headers := (request_headers BEARER_TOKEN).

Lemma list_locations_none unable none_found :
  list_locations repr PyNone unable none_found = inr unable.
Proof. reflexivity. Qed.

(** C10, as the code has it: when the HTTP client is created and left
    without an exception, [make_location_request] prints and answers [None]
    for every [Exception] raised inside its [try] block (by the request, a
    timeout say, by an error status, or by decoding the body) and returns
    the decoded payload when nothing is raised; it raises only what
    creating or leaving the client raised, or what the [try] block raised
    that is no [Exception]; and each of the two search tools turns a [None]
    into its message instead of raising. *)
Theorem failed_fetch_becomes_a_message :
  (forall url got,
     http_get url headers 30 = Exchanged got None ->
     (forall str_e,
        got = inl (Exception str_e) ->
        request url
        = (["Error fetching location data: " ++ str_e], inr PyNone))
     /\ (forall response str_e,
           got = inr response ->
           raise_for_status response = Some (Exception str_e) ->
           request url
           = (["Error fetching location data: " ++ str_e], inr PyNone))
     /\ (forall response str_e,
           got = inr response ->
           raise_for_status response = None ->
           response_json response = inl (Exception str_e) ->
           request url
           = (["Error fetching location data: " ++ str_e], inr PyNone))
     /\ (forall response payload,
           got = inr response ->
           raise_for_status response = None ->
           response_json response = inr payload ->
           request url = ([], inr payload)))
  /\ (forall url e,
        snd (request url) = inl e ->
        exists r,
          e = Raised r
          /\ (http_get url headers 30 = OpenFailed r
              \/ (exists got, http_get url headers 30 = Exchanged got (Some r))
              \/ (exists got str_e,
                    http_get url headers 30 = Exchanged got None
                    /\ r = BaseException str_e
                    /\ (got = inl r
                        \/ exists response,
                             got = inr response
                             /\ (raise_for_status response = Some r
                                 \/ (raise_for_status response = None
                                     /\ response_json response = inl r))))))
  /\ (forall name,
        snd (request (LOCATION_API_BASE ++ "/search?name=" ++ name))
        = inr PyNone ->
        snd (search_locations_by_name BEARER_TOKEN http_get repr name)
        = inr "Unable to fetch locations or no locations found.")
  /\ (forall state,
        snd (request (LOCATION_API_BASE ++ "/search?state=" ++ state))
        = inr PyNone ->
        snd (get_locations_by_state BEARER_TOKEN http_get repr state)
        = inr ("Unable to fetch locations for state '" ++ state ++ "'.")).
Proof.
  split; [| split; [| split]].
  - intros url got Hx. unfold make_location_request. rewrite Hx.
    unfold try_except, try_block. repeat split.
    + intros str_e ->. reflexivity.
    + intros response str_e -> Hs. now rewrite Hs.
    + intros response str_e -> Hs Hj. now rewrite Hs, Hj.
    + intros response payload -> Hs Hj. now rewrite Hs, Hj.
  - intros url e. unfold make_location_request.
    destruct (http_get url headers 30) as [r | got closed] eqn:Hx.
    + simpl. intros H. injection H as <-. exists r. split; [reflexivity|].
      now left.
    + unfold try_except, try_block.
      destruct closed as [r|].
      * intros H. exists r. split.
        -- destruct got as [[x|x] | response]; simpl in H;
             [congruence | congruence |].
           destruct (raise_for_status response) as [[x|x]|];
             simpl in H; [congruence | congruence |].
           destruct (response_json response) as [[x|x]|payload];
             simpl in H; congruence.
        -- right. left. now exists got.
      * destruct got as [[x|x] | response]; simpl; intros H;
          [discriminate H | |].
        -- injection H as <-. exists (BaseException x).
           split; [reflexivity|]. right. right.
           exists (inl (BaseException x)), x.
           split; [reflexivity | split; [reflexivity | now left]].
        -- destruct (raise_for_status response) as [[x|x]|] eqn:Hs;
             simpl in H; [discriminate H | |].
           ++ injection H as <-. exists (BaseException x).
              split; [reflexivity|]. right. right.
              exists (inr response), x.
              split; [reflexivity | split; [reflexivity | right]].
              exists response. split; [reflexivity | now left].
           ++ destruct (response_json response) as [[x|x]|payload] eqn:Hj;
                simpl in H; [discriminate H | | discriminate H].
              injection H as <-. exists (BaseException x).
              split; [reflexivity|]. right. right.
              exists (inr response), x.
              split; [reflexivity | split; [reflexivity | right]].
              exists response. split; [reflexivity | now right].
  - intros name H. unfold search_locations_by_name.
    destruct (request (LOCATION_API_BASE ++ "/search?name=" ++ name))
      as [out [e|data]]; simpl in *; [discriminate|].
    injection H as ->. reflexivity.
  - intros state H. unfold get_locations_by_state.
    destruct (request (LOCATION_API_BASE ++ "/search?state=" ++ state))
      as [out [e|data]]; simpl in *; [discriminate|].
    injection H as ->. reflexivity.
Qed.

End LocationFacts.

(** C10 when every request times out: the state search answers with its
    message. *)
Lemma failed_fetch_witness :
  snd (LocationManager.get_locations_by_state None LocationManager.timing_out
         LocationManager.no_repr "MS")
  = inr "Unable to fetch locations for state 'MS'.".
Proof.
  pose proof (failed_fetch_becomes_a_message None LocationManager.timing_out
                LocationManager.no_repr) as (_ & _ & _ & Hstate).
  exact (Hstate "MS" eq_refl).
Defined.

(** C10 as the specification words it fails: a request that is cancelled
    while it is awaited, and a client that cannot be created, make
    [make_location_request] raise, and the state search with it. *)
Lemma cancelled_request_is_raised :
  LocationManager.make_location_request None LocationManager.cancelled
    "https://example.invalid"
  = ([], inl (LocationManager.Raised (LocationManager.BaseException "")))
  /\ LocationManager.make_location_request None LocationManager.not_opening
       "https://example.invalid"
     = ([], inl (LocationManager.Raised
                   (LocationManager.Exception "no transport")))
  /\ snd (LocationManager.get_locations_by_state None
            LocationManager.not_opening LocationManager.no_repr "MS")
     = inl (LocationManager.Raised
              (LocationManager.Exception "no transport")).
Proof. repeat split. Qed.

(* ================================================================== *)
(** * Further properties of the client *)

(** ** The order of a query's remote calls *)

(** A model call that returns was sent by a client that is not latched, and
    changes nothing but the trace. *)
Lemma invoke_returned msgs tls w reply w' :
  _invoke_bedrock_claude msgs tls w = (Return reply, w') ->
  bedrock_available (self w) = true
  /\ invoke_model (bedrock_client (self w)) (trace w)
       (claude_model_id (self w)) (request_body_of msgs tls)
     = inr reply
  /\ w' = logged [ev_invoke_model (claude_model_id (self w))
                    (request_body_of msgs tls)] [] w.
Proof.
  unfold _invoke_bedrock_claude, bind, get_self. simpl.
  destruct (bedrock_available (self w)); simpl; [| discriminate].
  unfold try_except_ClientError, client_invoke_model, bind, get_self, get_trace, record,
    lift. simpl.
  destruct (invoke_model (bedrock_client (self w)) (trace w)
              (claude_model_id (self w)) (request_body_of msgs tls))
    as [[code message str_e | str_e | str_e] | answer]; simpl.
  - unfold bind, raise.
    match goal with
    | |- context [if ?latch then _ else _] => destruct latch
    end; discriminate.
  - discriminate.
  - discriminate.
  - unfold ret, logged. simpl. intros H. injection H as <- <-.
    rewrite app_nil_r. now repeat split.
Qed.

Section CallOrder.

Variable s : ClientSession.
Variable tls : list tool_spec.

(** What one step of the loop records. *)
Lemma process_block_calls b l w r w1 :
  process_block s tls b l w = (r, w1) ->
  (is_tool_use b = false
   /\ w1 = w
   /\ exists l1,
        r = Return l1
        /\ l_messages l1 = l_messages l
        /\ l_tool_results l1 = l_tool_results l)
  \/ (is_tool_use b = true
      /\ trace w1 = call_of b :: trace w
      /\ exists e, r = Raise e)
  \/ (is_tool_use b = true
      /\ exists result,
           trace w1
           = ev_invoke_model (claude_model_id (self w))
               (request_body_of
                  (l_messages l ++ turns_for (l_tool_results l) b result) tls)
             :: call_of b :: trace w
           /\ ((exists e, r = Raise e)
               \/ exists l1,
                    r = Return l1
                    /\ l_messages l1
                       = (l_messages l
                            ++ turns_for (l_tool_results l) b result)%list
                    /\ l_tool_results l1 = l_tool_results l)).
Proof.
  unfold process_block, is_tool_use.
  destruct (Py.eq_opt_string (cb_type b) "text") eqn:Ht.
  { intros H. injection H as <- <-. left.
    split; [exact (text_not_tool_use b Ht) | split; [reflexivity|]].
    eexists. split; [reflexivity | split; reflexivity]. }
  destruct (Py.eq_opt_string (cb_type b) "tool_use") eqn:Hu.
  2:{ intros H. injection H as <- <-. left.
      split; [reflexivity | split; [reflexivity|]].
      eexists. split; [reflexivity | split; reflexivity]. }
  unfold bind at 1. unfold print at 1.
  unfold bind at 1. unfold session_call_tool, bind, get_trace, record, lift.
  simpl.
  destruct (call_tool s (trace w) (cb_name b)
              (Py.get_or (JDict []) (cb_input b))) as [e|result]; simpl.
  { intros H. injection H as <- <-. right. left.
    split; [reflexivity | split; [reflexivity | now exists e]]. }
  match goal with
  | |- context [_invoke_bedrock_claude ?msgs tls ?w0] =>
      pose proof (invoke_sends msgs tls w0) as Hsend;
      destruct (_invoke_bedrock_claude msgs tls w0) as [[reply|e] w2] eqn:Ei
  end; simpl in *; intros H; injection H as <- <-.
  - right. right. split; [reflexivity|]. exists result. split.
    + destruct (invoke_returned _ _ _ _ _ Ei) as (_ & _ & ->). reflexivity.
    + right. eexists. split; [reflexivity | split; reflexivity].
  - destruct Hsend as [-> | ->].
    + right. left.
      split; [reflexivity | split; [reflexivity | now exists e]].
    + right. right. split; [reflexivity|]. exists result.
      split; [reflexivity | left; now exists e].
Qed.

(** The calls of the loop. *)
Lemma process_blocks_calls bs : forall l w r w',
  process_blocks s tls bs l w = (r, w') ->
  exists evs finished,
    trace w' = (rev evs ++ trace w)%list
    /\ loop_calls (claude_model_id (self w)) tls (l_tool_results l)
         (l_messages l) bs evs finished
    /\ (finished = true -> exists l', r = Return l')
    /\ (finished = false -> exists e, r = Raise e).
Proof.
  induction bs as [|b bs IH]; intros l w r w' H; simpl in H.
  - injection H as <- <-. exists [], true.
    split; [reflexivity | split; [constructor | split]].
    + intros _. now exists l.
    + discriminate.
  - unfold bind in H.
    destruct (process_block s tls b l w) as [r1 w1] eqn:E1.
    pose proof (tracked_process_block s tls b l w r1 w1 E1)
      as ((_ & _ & Hmid) & _).
    destruct (process_block_calls b l w r1 w1 E1)
      as [(Hb & -> & l1 & -> & Hm & Hr)
         | [(Hb & Htr & e & ->)
           | (Hb & result & Htr & [(e & ->) | (l1 & -> & Hm & Hr)])]].
    + destruct (IH l1 w r w' H) as (evs & finished & T & L & F1 & F2).
      rewrite Hm, Hr in L.
      exists evs, finished.
      split; [exact T | split; [now apply loop_skip | now split]].
    + injection H as <- <-. exists [call_of b], false.
      split; [exact Htr | split; [now apply loop_stop_at_tool | split]].
      * discriminate.
      * intros _. now exists e.
    + injection H as <- <-.
      eexists [call_of b; _], false.
      split; [exact Htr | split; [now apply loop_stop_at_model | split]].
      * discriminate.
      * intros _. now exists e.
    + destruct (IH l1 w1 r w' H) as (evs & finished & T & L & F1 & F2).
      rewrite Hm, Hr, Hmid in L.
      eexists (call_of b :: _ :: evs), finished.
      split; [| split; [apply loop_go_on; [exact Hb | exact L] | now split]].
      rewrite T, Htr. simpl. now rewrite <- !app_assoc.
Qed.

End CallOrder.

Section QueryCalls.

Variable format_exc : exn -> string.

Lemma count_new_calls (f : event -> bool) evs h :
  length (filter f (rev evs ++ h)) = length (filter f evs) + length (filter f h).
Proof.
  now rewrite filter_app, length_app, filter_rev, length_rev.
Qed.

(** The calls of a query with a session. *)
Lemma process_query_call_shape query w s :
  session (self w) = Some s ->
  exists evs finished,
    trace (snd (process_query format_exc query w)) = (rev evs ++ trace w)%list
    /\ query_calls (claude_model_id (self w)) query evs finished.
Proof.
  intros Hs.
  rewrite (process_query_trace format_exc query w s Hs).
  unfold process_query_body.
  unfold bind at 1.
  unfold session_list_tools, bind, get_trace, record, lift. simpl.
  destruct (list_tools s (trace w)) as [e|catalog]; simpl.
  { exists [ev_list_tools], false. split; [reflexivity | constructor]. }
  match goal with
  | |- context [_invoke_bedrock_claude ?msgs ?tls ?w1] =>
      pose proof (invoke_sends msgs tls w1) as Hsend;
      destruct (_invoke_bedrock_claude msgs tls w1) as [[reply|e] w2] eqn:Ei
  end; simpl in *.
  - destruct (invoke_returned _ _ _ _ _ Ei) as (_ & _ & ->).
    match goal with
    | |- context [process_blocks s ?tls ?bs ?l ?w2] =>
        destruct (process_blocks s tls bs l w2) as [r w3] eqn:Eb;
        destruct (process_blocks_calls s tls bs l w2 r w3 Eb)
          as (evs & finished & T & L & _)
    end.
    simpl in T, L.
    eexists (ev_list_tools :: _ :: evs), finished.
    split; [| exact (query_loop _ _ _ _ _ _ L)].
    destruct r; simpl; rewrite T; simpl; now rewrite <- !app_assoc.
  - destruct Hsend as [-> | ->].
    + exists [ev_list_tools], false. split; [reflexivity | constructor].
    + eexists [ev_list_tools; _], false.
      split; [reflexivity | apply query_stop_at_model].
Qed.

(** The counts of a loop's calls. *)
Lemma loop_calls_counts modelId tls results msgs bs evs finished :
  loop_calls modelId tls results msgs bs evs finished ->
  catalog_fetches evs = 0
  /\ model_calls evs <= tool_calls evs
  /\ tool_calls evs <= model_calls evs + 1
  /\ tool_calls evs <= length (filter is_tool_use bs)
  /\ (finished = true ->
      model_calls evs = tool_calls evs
      /\ tool_calls evs = length (filter is_tool_use bs)).
Proof.
  unfold catalog_fetches, model_calls, tool_calls, call_of.
  induction 1 as [msgs | msgs b bs evs finished Hb _ IH | msgs b bs Hb
                 | msgs b bs result Hb
                 | msgs b bs result evs finished Hb _ IH];
    simpl; try rewrite Hb; simpl.
  - split; [| split; [| split; [| split]]]; try lia.
  - exact IH.
  - split; [| split; [| split; [| split]]]; try lia; discriminate.
  - split; [| split; [| split; [| split]]]; try lia; discriminate.
  - destruct IH as (I1 & I2 & I3 & I4 & I5).
    split; [| split; [| split; [| split]]]; try lia.
    intros F. destruct (I5 F). split; lia.
Qed.

(** X1: in every query the remote calls interleave: the catalog is fetched
    exactly once when there is a session and never otherwise; the number [t]
    of tool calls and the number [m] of model calls the query adds satisfy
    [t <= m <= t + 1]: no tool is called before the model was asked, and
    after each tool call the model is asked at most once. *)
Theorem calls_of_a_query_interleave query w :
  exists m t,
    model_calls (trace (snd (process_query format_exc query w)))
    = model_calls (trace w) + m
    /\ tool_calls (trace (snd (process_query format_exc query w)))
       = tool_calls (trace w) + t
    /\ catalog_fetches (trace (snd (process_query format_exc query w)))
       = catalog_fetches (trace w)
         + match session (self w) with Some _ => 1 | None => 0 end
    /\ t <= m
    /\ m <= t + 1.
Proof.
  destruct (session (self w)) as [s|] eqn:Hs.
  - destruct (process_query_call_shape query w s Hs)
      as (evs & finished & T & Q).
    rewrite T.
    exists (model_calls evs), (tool_calls evs).
    unfold model_calls, tool_calls, catalog_fetches.
    rewrite !count_new_calls.
    destruct Q as [| tls | tls bs evs finished L].
    + simpl. repeat split; lia.
    + simpl. repeat split; lia.
    + destruct (loop_calls_counts _ _ _ _ _ _ _ L) as (C1 & C2 & C3 & _).
      unfold model_calls, tool_calls, catalog_fetches in *. simpl.
      repeat split; lia.
  - rewrite (process_query_without_session format_exc query w Hs). simpl.
    exists 0, 0. repeat split; lia.
Qed.

(** The calls of the body of a query whose catalog fetch is answered: it
    stops before or at the first model call, or goes through the loop over
    the blocks of the first reply. *)
Lemma process_query_body_calls query w s catalog :
  list_tools s (trace w) = inr catalog ->
  (trace (snd (process_query_body s query w)) = ev_list_tools :: trace w
   /\ exists e, fst (process_query_body s query w) = Raise e)
  \/ (trace (snd (process_query_body s query w))
      = ev_invoke_model (claude_model_id (self w))
          (request_body_of (initial_messages query) (map tool_spec_of catalog))
        :: ev_list_tools :: trace w
      /\ exists e, fst (process_query_body s query w) = Raise e)
  \/ (exists reply evs finished,
        bedrock_available (self w) = true
        /\ invoke_model (bedrock_client (self w)) (ev_list_tools :: trace w)
             (claude_model_id (self w))
             (request_body_of (initial_messages query)
                (map tool_spec_of catalog))
           = inr reply
        /\ trace (snd (process_query_body s query w))
           = (rev evs
                ++ ev_invoke_model (claude_model_id (self w))
                     (request_body_of (initial_messages query)
                        (map tool_spec_of catalog))
                :: ev_list_tools :: trace w)%list
        /\ loop_calls (claude_model_id (self w)) (map tool_spec_of catalog) []
             (initial_messages query) (Py.get_or [] (body_content reply))
             evs finished
        /\ (finished = true ->
            exists text, fst (process_query_body s query w) = Return text)
        /\ (finished = false ->
            exists e, fst (process_query_body s query w) = Raise e)).
Proof.
  intros Hl.
  unfold process_query_body.
  unfold bind at 1 3 5.
  unfold session_list_tools, bind, get_trace, record, lift. simpl.
  rewrite Hl. simpl.
  match goal with
  | |- context [_invoke_bedrock_claude ?msgs ?tls ?w1] =>
      pose proof (invoke_sends msgs tls w1) as Hsend;
      destruct (_invoke_bedrock_claude msgs tls w1) as [[reply|e] w2] eqn:Ei
  end; simpl in *.
  - destruct (invoke_returned _ _ _ _ _ Ei) as (Hav & Hi & ->).
    simpl in Hav, Hi.
    right. right.
    match goal with
    | |- context [process_blocks s ?tls ?bs ?l ?w2] =>
        destruct (process_blocks s tls bs l w2) as [r w3] eqn:Eb;
        destruct (process_blocks_calls s tls bs l w2 r w3 Eb)
          as (evs & finished & T & L & F1 & F2)
    end.
    simpl in T, L.
    exists reply, evs, finished.
    split; [exact Hav | split; [exact Hi | split; [| split; [exact L|]]]].
    + destruct r; simpl; exact T.
    + split.
      * intros Hf. destruct (F1 Hf) as (l' & ->). simpl. now eexists.
      * intros Hf. destruct (F2 Hf) as (e & ->). simpl. now exists e.
  - destruct Hsend as [-> | ->].
    + left. split; [reflexivity | now exists e].
    + right. left. split; [reflexivity | now exists e].
Qed.

(** The tool calls of a loop are those of the tool requests, in order. *)
Lemma loop_calls_order modelId tls results msgs bs evs finished :
  loop_calls modelId tls results msgs bs evs finished ->
  begins (filter is_call_tool evs) (map call_of (filter is_tool_use bs))
  /\ (finished = true ->
      filter is_call_tool evs = map call_of (filter is_tool_use bs)).
Proof.
  unfold begins.
  induction 1 as [msgs | msgs b bs evs finished Hb _ IH | msgs b bs Hb
                 | msgs b bs result Hb
                 | msgs b bs result evs finished Hb _ IH];
    simpl; try rewrite Hb; simpl.
  - split; [now exists [] | reflexivity].
  - exact IH.
  - split; [eexists; reflexivity | discriminate].
  - split; [eexists; reflexivity | discriminate].
  - destruct IH as [(rest & E) F]. split.
    + exists rest. now rewrite E.
    + intros Hf. now rewrite (F Hf).
Qed.

(** The model calls of a loop: the model, the tools, and how the transcript
    grows. *)
Lemma loop_calls_requests modelId tls results msgs bs evs finished :
  loop_calls modelId tls results msgs bs evs finished ->
  Forall (sent_with modelId tls) evs
  /\ grows_by_two_turns msgs (requests_of evs).
Proof.
  induction 1 as [msgs | msgs b bs evs finished Hb _ IH | msgs b bs Hb
                 | msgs b bs result Hb
                 | msgs b bs result evs finished Hb _ IH];
    simpl.
  - split; [constructor | trivial].
  - exact IH.
  - split; [repeat constructor | trivial].
  - split.
    + repeat constructor.
    + split; [| trivial]. unfold turns_for, tool_turns.
      eexists _, _, _, _. reflexivity.
  - destruct IH as [I1 I2]. split.
    + constructor; [exact I | constructor; [repeat split | exact I1]].
    + split; [| exact I2]. unfold turns_for, tool_turns.
      eexists _, _, _, _. reflexivity.
Qed.

(** X2: the tool calls of a query are made in the order of the tool
    requests of the first reply, each with the name and the arguments of its
    block (no name is passed as [None], no input as the empty object): the
    calls made are a beginning of that list, and all of it when the body of
    the query raises nothing. *)
Theorem tools_are_called_in_reply_order query w s catalog reply :
  session (self w) = Some s ->
  list_tools s (trace w) = inr catalog ->
  invoke_model (bedrock_client (self w)) (ev_list_tools :: trace w)
    (claude_model_id (self w))
    (request_body_of (initial_messages query) (map tool_spec_of catalog))
  = inr reply ->
  exists evs,
    trace (snd (process_query format_exc query w)) = (rev evs ++ trace w)%list
    /\ begins (filter is_call_tool evs)
         (map call_of
            (filter is_tool_use (Py.get_or [] (body_content reply))))
    /\ (forall text,
          fst (process_query_body s query w) = Return text ->
          filter is_call_tool evs
          = map call_of
              (filter is_tool_use (Py.get_or [] (body_content reply)))).
Proof.
  intros Hs Hl Hi.
  rewrite (process_query_trace format_exc query w s Hs).
  destruct (process_query_body_calls query w s catalog Hl)
    as [(T & e & R)
       | [(T & e & R)
         | (reply' & evs & finished & _ & Hi' & T & L & F1 & F2)]].
  - exists [ev_list_tools]. split; [exact T | split].
    + now eexists.
    + intros text Ht. congruence.
  - eexists [ev_list_tools; _]. split; [exact T | split].
    + now eexists.
    + intros text Ht. congruence.
  - rewrite Hi in Hi'. injection Hi' as <-.
    destruct (loop_calls_order _ _ _ _ _ _ _ L) as [B E].
    eexists (ev_list_tools :: _ :: evs). split; [| split].
    + rewrite T. simpl. now rewrite <- !app_assoc.
    + exact B.
    + intros text Ht. simpl. apply E.
      destruct finished; [reflexivity|].
      destruct (F2 eq_refl) as (e & R). congruence.
Qed.

(** X4: every model call of a query is made with the client's model
    identifier, the version [bedrock-2023-05-31], 4096 tokens and the
    catalog fetched at the start of the query (the [tools] key left out
    when the catalog is empty); the first call carries the one user turn of
    the query, and each later call the transcript of the call before it
    with the two turns of one tool request added. *)
Theorem every_model_call_carries_the_catalog query w s catalog :
  session (self w) = Some s ->
  list_tools s (trace w) = inr catalog ->
  exists evs,
    trace (snd (process_query format_exc query w)) = (rev evs ++ trace w)%list
    /\ Forall (sent_with (claude_model_id (self w)) (map tool_spec_of catalog))
         evs
    /\ (requests_of evs = []
        \/ exists first rest,
             requests_of evs = first :: rest
             /\ messages first
                = [ {| msg_role := user; msg_content := plain query |} ]
             /\ grows_by_two_turns (messages first) rest).
Proof.
  intros Hs Hl.
  rewrite (process_query_trace format_exc query w s Hs).
  destruct (process_query_body_calls query w s catalog Hl)
    as [(T & _) | [(T & _) | (reply & evs & finished & _ & _ & T & L & _)]].
  - exists [ev_list_tools]. split; [exact T | split].
    + repeat constructor.
    + now left.
  - eexists [ev_list_tools; _]. split; [exact T | split].
    + repeat constructor.
    + right. eexists _, []. split; [reflexivity | now split].
  - destruct (loop_calls_requests _ _ _ _ _ _ _ L) as [S G].
    eexists (ev_list_tools :: _ :: evs). split; [| split].
    + rewrite T. simpl. now rewrite <- !app_assoc.
    + constructor; [exact I | constructor; [repeat split | exact S]].
    + right. eexists _, (requests_of evs).
      split; [reflexivity | split; [reflexivity | exact G]].
Qed.

(** The body of a query up to its first reply. *)
Lemma process_query_body_first_reply query w s catalog reply :
  bedrock_available (self w) = true ->
  list_tools s (trace w) = inr catalog ->
  invoke_model (bedrock_client (self w)) (ev_list_tools :: trace w)
    (claude_model_id (self w))
    (request_body_of (initial_messages query) (map tool_spec_of catalog))
  = inr reply ->
  process_query_body s query w
  = match
      process_blocks s (map tool_spec_of catalog)
        (Py.get_or [] (body_content reply))
        (initial_locals query reply)
        (logged
           [ev_invoke_model (claude_model_id (self w))
              (request_body_of (initial_messages query)
                 (map tool_spec_of catalog));
            ev_list_tools]
           ["Sending request to Claude via AWS Bedrock..."] w)
    with
    | (Return l, w') => (Return (Py.join Py.nl (l_final_text l)), w')
    | (Raise e, w') => (Raise e, w')
    end.
Proof.
  intros Hav Hl Hi.
  unfold process_query_body, bind.
  unfold session_list_tools, bind, get_trace, record, lift. simpl.
  rewrite Hl. unfold ret, print. simpl.
  rewrite (invoke_answered _ _ _ reply); [| exact Hav | exact Hi].
  unfold logged, initial_locals. simpl. rewrite app_nil_r.
  match goal with
  | |- context [process_blocks ?a ?b ?c ?d ?e] =>
      destruct (process_blocks a b c d e) as [[l|e'] w']
  end; reflexivity.
Qed.

(** When every call is answered the loop returns. *)
Lemma process_blocks_all_answered s tls bs : forall l w,
  bedrock_available (self w) = true ->
  always_answer (self w) s ->
  exists l' w', process_blocks s tls bs l w = (Return l', w').
Proof.
  induction bs as [|b bs IH]; intros l w Hav Hans; simpl.
  - now exists l, w.
  - unfold bind. destruct (is_tool_use b) eqn:Hb.
    + destruct Hans as [Hc Hi].
      destruct (Hc (trace w) (cb_name b) (Py.get_or (JDict []) (cb_input b)))
        as (result & Ec).
      destruct (Hi (call_of b :: trace w) (claude_model_id (self w))
                  (request_body_of (extended l b result) tls))
        as (reply & Ei).
      rewrite (process_block_answered s tls b l w result reply Hb Hav Ec Ei).
      apply IH; [exact Hav | now split].
    + rewrite (process_block_no_tool s tls b l w Hb).
      now apply IH.
Qed.

(** X3: when every call is answered, every tool request of the first reply
    is run: a first reply with [k] tool requests (among any other blocks)
    costs exactly [k] tool calls and [1 + k] model calls, and the body of
    the query raises nothing. *)
Theorem every_tool_request_of_the_first_reply_is_run
    query w s catalog reply :
  session (self w) = Some s ->
  bedrock_available (self w) = true ->
  always_answer (self w) s ->
  list_tools s (trace w) = inr catalog ->
  invoke_model (bedrock_client (self w)) (ev_list_tools :: trace w)
    (claude_model_id (self w))
    (request_body_of (initial_messages query) (map tool_spec_of catalog))
  = inr reply ->
  (exists text,
     fst (process_query_body s query w) = Return text
     /\ fst (process_query format_exc query w) = Return text)
  /\ model_calls (trace (snd (process_query format_exc query w)))
     = model_calls (trace w) + 1
       + length (filter is_tool_use (Py.get_or [] (body_content reply)))
  /\ tool_calls (trace (snd (process_query format_exc query w)))
     = tool_calls (trace w)
       + length (filter is_tool_use (Py.get_or [] (body_content reply))).
Proof.
  intros Hs Hav Hans Hl Hi.
  assert (Hret : exists text, fst (process_query_body s query w) = Return text).
  { rewrite (process_query_body_first_reply query w s catalog reply Hav Hl Hi).
    match goal with
    | |- context [process_blocks s ?tls ?bs ?l ?w2] =>
        destruct (process_blocks_all_answered s tls bs l w2 Hav Hans)
          as (l' & w' & ->)
    end.
    now eexists. }
  destruct Hret as (text & Hret).
  split.
  { exists text. split; [exact Hret|].
    rewrite (process_query_with_session format_exc query w s Hs).
    destruct (process_query_body s query w) as [r w']. simpl in Hret.
    now subst r. }
  rewrite (process_query_trace format_exc query w s Hs).
  destruct (process_query_body_calls query w s catalog Hl)
    as [(_ & e & R)
       | [(_ & e & R)
         | (reply' & evs & finished & _ & Hi' & T & L & F1 & F2)]];
    [congruence | congruence |].
  rewrite Hi in Hi'. injection Hi' as <-.
  destruct finished; [| destruct (F2 eq_refl) as (e & R); congruence].
  destruct (loop_calls_counts _ _ _ _ _ _ _ L) as (_ & _ & _ & _ & C).
  destruct (C eq_refl) as [Cm Ct].
  rewrite T. unfold model_calls, tool_calls in *.
  rewrite !count_new_calls. simpl. lia.
Qed.

End QueryCalls.

(** X2 at the client with two tool requests in its first reply: both tools
    are called, in the order of the reply. *)
Lemma tools_in_order_witness :
  exists evs,
    trace (snd (process_query Scenario.no_traceback "q"
                  (Scenario.start Scenario.two_requests_client)))
    = (rev evs ++ [])%list
    /\ begins (filter is_call_tool evs)
         [ ev_call_tool (Some "first") (JDict []);
           ev_call_tool (Some "second") (JDict [("n", JInt 2)]) ]
    /\ (forall text,
          fst (process_query_body (Scenario.echo_session []) "q"
                 (Scenario.start Scenario.two_requests_client))
          = Return text ->
          filter is_call_tool evs
          = [ ev_call_tool (Some "first") (JDict []);
              ev_call_tool (Some "second") (JDict [("n", JInt 2)]) ]).
Proof.
  exact (tools_are_called_in_reply_order Scenario.no_traceback "q"
           (Scenario.start Scenario.two_requests_client)
           (Scenario.echo_session []) [] Scenario.two_requests
           eq_refl eq_refl eq_refl).
Defined.

Lemma always_answering_scenario :
  always_answer Scenario.two_requests_client (Scenario.echo_session []).
Proof. split; intros; eexists; reflexivity. Qed.

(** X3 at the same client: two tool requests, two tool calls, three model
    calls. *)
Lemma every_tool_request_witness :
  model_calls (trace (snd (process_query Scenario.no_traceback "q"
                             (Scenario.start Scenario.two_requests_client))))
  = 0 + 1 + 2
  /\ tool_calls (trace (snd (process_query Scenario.no_traceback "q"
                               (Scenario.start Scenario.two_requests_client))))
     = 0 + 2.
Proof.
  exact (proj2 (every_tool_request_of_the_first_reply_is_run
                  Scenario.no_traceback "q"
                  (Scenario.start Scenario.two_requests_client)
                  (Scenario.echo_session []) [] Scenario.two_requests
                  eq_refl eq_refl always_answering_scenario eq_refl eq_refl)).
Defined.

(** X4 at the same client. *)
Lemma every_model_call_witness :
  exists evs,
    trace (snd (process_query Scenario.no_traceback "q"
                  (Scenario.start Scenario.two_requests_client)))
    = (rev evs ++ [])%list
    /\ Forall (sent_with "us.anthropic.claude-3-7-sonnet-20250219-v1:0" []) evs
    /\ (requests_of evs = []
        \/ exists first rest,
             requests_of evs = first :: rest
             /\ messages first
                = [ {| msg_role := user; msg_content := plain "q" |} ]
             /\ grows_by_two_turns (messages first) rest).
Proof.
  exact (every_model_call_carries_the_catalog Scenario.no_traceback "q"
           (Scenario.start Scenario.two_requests_client)
           (Scenario.echo_session []) [] eq_refl eq_refl).
Defined.

(** ** Replies without a tool request, and failed fetches *)

Section PlainRuns.

Variable format_exc : exn -> string.

(** X5: when the first reply holds no tool request, the query returns the
    texts of its text blocks joined by newlines, after one model call and no
    tool call: blocks of any other type are passed over, a text block
    without a ["text"] key counts as the empty string, and a reply without a
    ["content"] key gives the empty string. *)
Theorem reply_without_tool_request_keeps_text_blocks
    query w s catalog reply :
  session (self w) = Some s ->
  bedrock_available (self w) = true ->
  list_tools s (trace w) = inr catalog ->
  invoke_model (bedrock_client (self w)) (ev_list_tools :: trace w)
    (claude_model_id (self w))
    (request_body_of (initial_messages query) (map tool_spec_of catalog))
  = inr reply ->
  tool_free (Py.get_or [] (body_content reply)) = true ->
  fst (process_query format_exc query w)
  = Return
      (Py.join Py.nl
         (map text_of (filter is_text (Py.get_or [] (body_content reply)))))
  /\ (body_content reply = None ->
      fst (process_query format_exc query w) = Return "")
  /\ trace (snd (process_query format_exc query w))
     = ev_invoke_model (claude_model_id (self w))
         (request_body_of (initial_messages query) (map tool_spec_of catalog))
       :: ev_list_tools :: trace w.
Proof.
  intros Hs Hav Hl Hi Hfree.
  rewrite (process_query_first_reply format_exc query w s catalog reply
             Hs Hav Hl Hi).
  rewrite process_blocks_no_tool by exact Hfree.
  rewrite follow_up_text_filter. simpl.
  split; [reflexivity | split; [| reflexivity]].
  intros Hnone. now rewrite Hnone.
Qed.

(** X6: when the catalog fetch of a query raises [e], the query makes no
    other remote call, prints nothing and leaves the client as it was; it
    returns the error string of [e] when [e] derives from [Exception], and
    raises [e] when it does not. *)
Theorem failed_catalog_fetch_makes_no_model_call query w s e :
  session (self w) = Some s ->
  list_tools s (trace w) = inl e ->
  trace (snd (process_query format_exc query w)) = ev_list_tools :: trace w
  /\ stdout (snd (process_query format_exc query w)) = stdout w
  /\ self (snd (process_query format_exc query w)) = self w
  /\ ((forall str_e, e <> BaseException str_e) ->
      fst (process_query format_exc query w)
      = Return ("Error processing query: " ++ str e ++ Py.nl ++ Py.nl
                ++ format_exc e))
  /\ (forall str_e,
        e = BaseException str_e ->
        fst (process_query format_exc query w) = Raise e).
Proof.
  intros Hs Hl.
  rewrite (process_query_with_session format_exc query w s Hs).
  unfold process_query_body, bind.
  unfold session_list_tools, bind, get_trace, record, lift. simpl.
  rewrite Hl. simpl.
  split; [now destruct (is_Exception e) |].
  split; [now destruct (is_Exception e) |].
  split; [now destruct (is_Exception e) |].
  split.
  - intros Hne. now rewrite (not_base_is_Exception e Hne).
  - intros str_e ->. reflexivity.
Qed.


(** X9: a query leaves the client's session, Bedrock client and model
    identifier as they were, and never clears the latch: a client that is
    available after a query was available before it. *)
Theorem process_query_keeps_the_client query w :
  same_remote (self w) (self (snd (process_query format_exc query w)))
  /\ (bedrock_available (self (snd (process_query format_exc query w))) = true
      -> bedrock_available (self w) = true).
Proof.
  split.
  - destruct (session (self w)) as [s|] eqn:Hs.
    + rewrite (process_query_with_session format_exc query w s Hs).
      destruct (process_query_body s query w) as [r w'] eqn:E.
      destruct (tracked_process_query_body s query w r w' E) as (Hsame & _).
      destruct r as [text|e]; [exact Hsame|].
      now destruct (is_Exception e).
    + rewrite (process_query_without_session format_exc query w Hs).
      apply same_remote_refl.
  - destruct (bedrock_available (self w)) eqn:Hav; [reflexivity|].
    rewrite (proj1 (latched_query_world format_exc query w Hav)).
    now rewrite Hav.
Qed.

End PlainRuns.

(** X5 at a reply of two text blocks. *)
Lemma reply_without_tool_request_witness :
  fst (process_query Scenario.no_traceback "q"
         (Scenario.start Scenario.two_texts_client))
  = Return (Py.join Py.nl ["a"; "b"]).
Proof.
  exact (proj1 (reply_without_tool_request_keeps_text_blocks
                  Scenario.no_traceback "q"
                  (Scenario.start Scenario.two_texts_client)
                  (Scenario.scripted_session (inr []) []) []
                  (Scenario.reply
                     [Scenario.text_block "a"; Scenario.text_block "b"])
                  eq_refl eq_refl eq_refl eq_refl eq_refl)).
Defined.

(** X6 at a client whose catalog fetch fails. *)
Lemma failed_catalog_fetch_witness :
  fst (process_query Scenario.no_traceback "q"
         (Scenario.start Scenario.no_catalog_client))
  = Return ("Error processing query: " ++ "connection closed" ++ Py.nl
            ++ Py.nl ++ "").
Proof.
  refine (proj1 (proj2 (proj2 (proj2
            (failed_catalog_fetch_makes_no_model_call Scenario.no_traceback
               "q" (Scenario.start Scenario.no_catalog_client)
               (Scenario.scripted_session
                  (inl (Exception "connection closed")) [])
               (Exception "connection closed") eq_refl eq_refl)))) _).
  intros str_e. discriminate.
Defined.


(** ** The model invoker and the constructor *)

Lemma latch_test code :
  existsb (String.eqb code) auth_error_codes = true
  <-> In code auth_error_codes.
Proof.
  rewrite existsb_exists. split.
  - intros (x & Hin & Heq). apply String.eqb_eq in Heq. now subst x.
  - intros Hin. exists code. split; [exact Hin | apply String.eqb_refl].
Qed.

Lemma auth_code_spelled code :
  In code auth_error_codes
  <-> code = "UnrecognizedClientException"
      \/ code = "InvalidSignatureException"
      \/ code = "ExpiredTokenException"
      \/ code = "AccessDeniedException".
Proof.
  simpl. split.
  - intros [H | [H | [H | [H | []]]]]; subst; tauto.
  - intros [H | [H | [H | H]]]; subst; tauto.
Qed.

(** X8: a model call that fails is recorded; a [ClientError] is replaced by
    an [Exception] reading [AWS Bedrock error (code): message], where a
    missing code reads [Unknown] and a missing message reads [str(e)], and
    any other exception is raised as it is; the client is latched exactly
    when the failure is a [ClientError] whose code is
    [UnrecognizedClientException], [InvalidSignatureException],
    [ExpiredTokenException] or [AccessDeniedException]. *)
Theorem client_latches_exactly_on_authentication_codes msgs tls w e :
  bedrock_available (self w) = true ->
  invoke_model (bedrock_client (self w)) (trace w) (claude_model_id (self w))
    (request_body_of msgs tls)
  = inl e ->
  fst (_invoke_bedrock_claude msgs tls w)
  = Raise
      match e with
      | ClientError code message str_e =>
          Exception
            ("AWS Bedrock error ("
             ++ match code with Some c => c | None => "Unknown" end
             ++ "): "
             ++ match message with Some m => m | None => str_e end)
      | _ => e
      end
  /\ trace (snd (_invoke_bedrock_claude msgs tls w))
     = ev_invoke_model (claude_model_id (self w)) (request_body_of msgs tls)
       :: trace w
  /\ (bedrock_available (self (snd (_invoke_bedrock_claude msgs tls w)))
      = false
      <-> exists code message str_e,
            e = ClientError (Some code) message str_e
            /\ (code = "UnrecognizedClientException"
                \/ code = "InvalidSignatureException"
                \/ code = "ExpiredTokenException"
                \/ code = "AccessDeniedException")).
Proof.
  intros Hav Hi.
  unfold _invoke_bedrock_claude, bind, get_self. simpl. rewrite Hav. simpl.
  unfold try_except_ClientError, client_invoke_model, bind, get_self,
    get_trace, record, lift. simpl.
  rewrite Hi. unfold raise.
  destruct e as [code message str_e | str_e | str_e]; simpl.
  - unfold bind.
    match goal with
    | |- context [if ?latch then _ else _] => destruct latch eqn:E
    end; simpl; (split; [reflexivity | split; [reflexivity|]]).
    + change (existsb (String.eqb (Py.get_or "Unknown" code))
                auth_error_codes = true) in E.
      apply latch_test in E.
      split; [intros _ | reflexivity].
      destruct code as [code|].
      * exists code, message, str_e.
        split; [reflexivity | now apply auth_code_spelled].
      * simpl in E. repeat (destruct E as [E|E]; [discriminate E|]).
        contradiction.
    + change (existsb (String.eqb (Py.get_or "Unknown" code))
                auth_error_codes = false) in E.
      rewrite Hav. split; [discriminate|].
      intros (code' & message' & str_e' & Heq & Hin).
      injection Heq as -> _ _. apply auth_code_spelled, latch_test in Hin.
      simpl in Hin, E. congruence.
  - split; [reflexivity | split; [reflexivity|]].
    rewrite Hav. split; [discriminate|].
    intros (code' & message' & str_e' & Heq & _). discriminate.
  - split; [reflexivity | split; [reflexivity|]].
    rewrite Hav. split; [discriminate|].
    intros (code' & message' & str_e' & Heq & _). discriminate.
Qed.

(** X10: the constructor raises only what [boto3.client] raised (its first
    call with anything but a [ClientError], or its second call after a
    [ClientError]); when a key or the secret is missing or empty, the two
    lines of the credentials warning are the first it prints, and nothing
    keeps it from building the client; and a client it builds is not
    latched and has no session, so that every query on it returns
    [Not connected to server. Please connect first.] without a remote
    call. *)
Theorem constructor_raises_only_with_boto3 env boto3_client :
  (forall e,
     snd (__init__ env boto3_client) = inl e
     <-> ((forall code message str_e, e <> ClientError code message str_e)
          /\ boto3_client 0 (kwargs_of env) = inl e)
         \/ (exists code message str_e,
               boto3_client 0 (kwargs_of env)
               = inl (ClientError code message str_e)
               /\ boto3_client 1 (kwargs_of env) = inl e))
  /\ (AWS_ACCESS_KEY_ID env = None \/ AWS_ACCESS_KEY_ID env = Some ""
      \/ AWS_SECRET_ACCESS_KEY env = None
      \/ AWS_SECRET_ACCESS_KEY env = Some "" ->
      exists rest,
        fst (__init__ env boto3_client)
        = "Warning: AWS credentials not found in environment variables."
          :: "Please set AWS_ACCESS_KEY_ID and AWS_SECRET_ACCESS_KEY."
          :: rest)
  /\ (forall key secret bc,
        AWS_ACCESS_KEY_ID env = Some key -> key <> "" ->
        AWS_SECRET_ACCESS_KEY env = Some secret -> secret <> "" ->
        boto3_client 0 (kwargs_of env) = inr bc ->
        fst (__init__ env boto3_client) = [])
  /\ (forall c,
        snd (__init__ env boto3_client) = inr c ->
        bedrock_available c = true
        /\ forall format_exc query h lines,
             process_query format_exc query
               {| self := c; trace := h; stdout := lines |}
             = (Return "Not connected to server. Please connect first.",
                {| self := c; trace := h; stdout := lines |})).
Proof.
  split; [| split; [| split]].
  - intros e. unfold __init__.
    destruct (boto3_client 0 (kwargs_of env))
      as [[code message str_e | str_e | str_e] | bc] eqn:E0.
    + destruct (boto3_client 1 (kwargs_of env)) as [e1 | bc] eqn:E1; simpl.
      * split.
        -- intros H. injection H as <-. right.
           now exists code, message, str_e.
        -- intros [(Hne & H) | (c0 & m0 & s0 & H0 & H)]; [|congruence].
           injection H as <-. now destruct (Hne code message str_e).
      * split; [discriminate|].
        intros [(Hne & H) | (c0 & m0 & s0 & H0 & H)]; [|congruence].
        injection H as <-. now destruct (Hne code message str_e).
    + simpl. split.
      * intros H. injection H as <-. left. split; [discriminate | reflexivity].
      * intros [(_ & H) | (c0 & m0 & s0 & H & H1)]; congruence.
    + simpl. split.
      * intros H. injection H as <-. left. split; [discriminate | reflexivity].
      * intros [(_ & H) | (c0 & m0 & s0 & H & H1)]; congruence.
    + simpl. split; [discriminate|].
      intros [(_ & H) | (c0 & m0 & s0 & H & H1)]; congruence.
  - intros Hmiss.
    assert (Hw : (unset (AWS_ACCESS_KEY_ID env)
                  || unset (AWS_SECRET_ACCESS_KEY env))%bool = true).
    { destruct Hmiss as [H | [H | [H | H]]]; rewrite H; simpl;
        try reflexivity; apply orb_true_r. }
    unfold __init__. rewrite Hw.
    destruct (boto3_client 0 (kwargs_of env))
      as [[code message str_e | str_e | str_e] | bc];
      [destruct (boto3_client 1 (kwargs_of env)) | | |];
      simpl; eexists; reflexivity.
  - intros key secret bc Hk Hkne Hsec Hsne H0.
    unfold __init__. rewrite H0, Hk, Hsec. simpl.
    apply String.eqb_neq in Hkne, Hsne. now rewrite Hkne, Hsne.
  - unfold __init__.
    destruct (boto3_client 0 (kwargs_of env))
      as [[code message str_e | str_e | str_e] | bc];
      [destruct (boto3_client 1 (kwargs_of env)) | | |];
      simpl; intros c H; try discriminate H;
      injection H as <-; now split.
Qed.

(** X8 at a model call refused with an expired token. *)
Lemma client_latches_witness :
  bedrock_available
    (self (snd (_invoke_bedrock_claude (initial_messages "q") []
                  (logged [ev_list_tools] []
                     (Scenario.start Scenario.expired_client)))))
  = false.
Proof.
  apply (proj2 (proj2 (client_latches_exactly_on_authentication_codes
                         (initial_messages "q") []
                         (logged [ev_list_tools] []
                            (Scenario.start Scenario.expired_client))
                         (ClientError (Some "ExpiredTokenException")
                            (Some "token expired") "An error occurred")
                         eq_refl eq_refl))).
  exists "ExpiredTokenException", (Some "token expired"), "An error occurred".
  split; [reflexivity | tauto].
Defined.

(* ================================================================== *)
(** * Further properties of the location server *)

Section LocationTools.

Import LocationManager.

Variable BEARER_TOKEN : option string.
Variable http_get : string -> list (string * string) -> Z -> exchange.
Variable repr : json -> string.

Abbreviation headers' := (request_headers BEARER_TOKEN).
Abbreviation by_name := (search_locations_by_name BEARER_TOKEN http_get repr).
Abbreviation by_state := (get_locations_by_state BEARER_TOKEN http_get repr).

Lemma field_of_dict items key default :
  field repr (JDict items) key default
  = inr (fmt repr (Py.get_or default (Json.lookup key items))).
Proof. reflexivity. Qed.

(** A payload that was fetched is what the request returns. *)
Lemma tool_outcome url data :
  fetch http_get url headers' = inr data ->
  make_location_request BEARER_TOKEN http_get url = ([], inr data).
Proof.
  unfold fetch, make_location_request, LocationManager.try_except.
  destruct (http_get url headers' 30) as [e | got closed]; [discriminate|].
  destruct (try_block got) as [e | payload]; [discriminate|].
  destruct closed as [e|]; [discriminate|].
  intros H. now injection H as ->.
Qed.

Lemma by_name_outcome name data :
  fetch http_get (LOCATION_API_BASE ++ "/search?name=" ++ name) headers'
  = inr data ->
  snd (by_name name)
  = list_locations repr data
      "Unable to fetch locations or no locations found."
      ("No locations found matching '" ++ name ++ "'.").
Proof.
  intros H. unfold search_locations_by_name.
  now rewrite (tool_outcome _ data H).
Qed.

Lemma by_state_outcome state data :
  fetch http_get (LOCATION_API_BASE ++ "/search?state=" ++ state) headers'
  = inr data ->
  snd (by_state state)
  = list_locations repr data
      ("Unable to fetch locations for state '" ++ state ++ "'.")
      ("No locations found in state '" ++ state ++ "'.").
Proof.
  intros H. unfold get_locations_by_state.
  now rewrite (tool_outcome _ data H).
Qed.

Lemma format_location_shaped location :
  well_shaped location = true ->
  exists text, format_location repr location = inr text.
Proof.
  destruct location as [| b | n | t | items | items]; try discriminate.
  unfold well_shaped, format_location. unfold dict_get at 1 2.
  unfold and_then at 1 2.
  destruct (Py.get_or (JDict []) (Json.lookup "address" items))
    as [| b | n | t | xs | address];
    destruct (Py.get_or (JDict []) (Json.lookup "contact" items))
    as [| b' | n' | t' | ys | contact];
    rewrite ?field_of_dict; simpl; intros H; try discriminate H.
  eexists; reflexivity.
Qed.

Lemma format_location_misshaped location :
  well_shaped location = false ->
  format_location repr location = inl AttributeError.
Proof.
  destruct location as [| b | n | t | items | items]; try reflexivity.
  unfold well_shaped, format_location. unfold dict_get at 1 2.
  unfold and_then at 1 2.
  destruct (Py.get_or (JDict []) (Json.lookup "address" items))
    as [| b | n | t | xs | address];
    destruct (Py.get_or (JDict []) (Json.lookup "contact" items))
    as [| b' | n' | t' | ys | contact];
    rewrite ?field_of_dict; simpl; intros H; try discriminate H;
    reflexivity.
Qed.

(** X11: [format_location] prints exactly the well-shaped locations: it
    returns a text for a dict whose ["address"] and ["contact"] are absent
    or dicts, and raises [AttributeError] for anything else (a location that
    is no dict, or one whose address or contact is, say, [null]). *)
Theorem format_location_prints_well_shaped_locations location :
  (well_shaped location = true ->
   exists text, format_location repr location = inr text)
  /\ (well_shaped location = false ->
      format_location repr location = inl AttributeError).
Proof.
  split; [apply format_location_shaped | apply format_location_misshaped].
Qed.

(** X13: on a payload that is an object, each search tool answers with its
    unable-to-fetch message when the object has no ["items"] key, and with
    its none-found message, which quotes the name or state searched for,
    when ["items"] is empty ([[]], but also [null], zero or the empty
    string). *)
Theorem search_tells_missing_from_empty_items d :
  (forall name,
     fetch http_get (LOCATION_API_BASE ++ "/search?name=" ++ name) headers'
     = inr (JDict d) ->
     (Json.lookup "items" d = None ->
      snd (by_name name)
      = inr "Unable to fetch locations or no locations found.")
     /\ (forall items,
           Json.lookup "items" d = Some items ->
           Json.truthy items = false ->
           snd (by_name name)
           = inr ("No locations found matching '" ++ name ++ "'.")))
  /\ (forall state,
        fetch http_get (LOCATION_API_BASE ++ "/search?state=" ++ state)
          headers'
        = inr (JDict d) ->
        (Json.lookup "items" d = None ->
         snd (by_state state)
         = inr ("Unable to fetch locations for state '" ++ state ++ "'."))
        /\ (forall items,
              Json.lookup "items" d = Some items ->
              Json.truthy items = false ->
              snd (by_state state)
              = inr ("No locations found in state '" ++ state ++ "'."))).
Proof.
  assert (Hlist : forall unable none_found,
            (Json.lookup "items" d = None ->
             list_locations repr (JDict d) unable none_found = inr unable)
            /\ (forall items,
                  Json.lookup "items" d = Some items ->
                  Json.truthy items = false ->
                  list_locations repr (JDict d) unable none_found
                  = inr none_found)).
  { intros unable none_found. unfold list_locations. split.
    - intros Hnone. destruct d as [|kv d']; [reflexivity|].
      cbn [Json.truthy negb has_key and_then]. now rewrite Hnone.
    - intros items Hsome Hfalsy. destruct d as [|kv d']; [discriminate|].
      cbn [Json.truthy negb has_key and_then subscript].
      rewrite Hsome. cbn [negb Py.get_or]. now rewrite Hfalsy. }
  split.
  - intros name Hf. rewrite (by_name_outcome name _ Hf). apply Hlist.
  - intros state Hf. rewrite (by_state_outcome state _ Hf). apply Hlist.
Qed.

Lemma format_all_shaped locations :
  forallb well_shaped locations = true ->
  exists texts,
    format_all repr locations = inr texts
    /\ Forall2 (fun location text => format_location repr location = inr text)
         locations texts.
Proof.
  induction locations as [|location rest IH]; simpl; intros H.
  - exists []. split; [reflexivity | constructor].
  - apply andb_true_iff in H as [Hl Hr].
    destruct (format_location_shaped location Hl) as (text & Ht).
    destruct (IH Hr) as (texts & Hf & Hall).
    exists (text :: texts). rewrite Ht, Hf.
    split; [reflexivity | now constructor].
Qed.

(** X14: on a payload whose ["items"] is a non-empty list of well-shaped
    locations, each search tool returns the texts [format_location] gives
    for the locations, one per location and in the order of the list, with
    a newline, three dashes and a newline between consecutive texts. *)
Theorem search_formats_every_location d locations :
  Json.lookup "items" d = Some (JList locations) ->
  locations <> [] ->
  forallb well_shaped locations = true ->
  exists texts,
    Forall2 (fun location text => format_location repr location = inr text)
      locations texts
    /\ (forall name,
          fetch http_get (LOCATION_API_BASE ++ "/search?name=" ++ name)
            headers'
          = inr (JDict d) ->
          snd (by_name name)
          = inr (String.concat (Py.nl ++ "---" ++ Py.nl) texts))
    /\ (forall state,
          fetch http_get (LOCATION_API_BASE ++ "/search?state=" ++ state)
            headers'
          = inr (JDict d) ->
          snd (by_state state)
          = inr (String.concat (Py.nl ++ "---" ++ Py.nl) texts)).
Proof.
  intros Hitems Hne Hshaped.
  destruct (format_all_shaped locations Hshaped) as (texts & Hf & Hall).
  exists texts. split; [exact Hall|].
  assert (Hlist : forall unable none_found,
            list_locations repr (JDict d) unable none_found
            = inr (String.concat (Py.nl ++ "---" ++ Py.nl) texts)).
  { intros unable none_found. unfold list_locations.
    destruct d as [|kv d']; [discriminate|].
    cbn [Json.truthy negb has_key and_then subscript].
    rewrite Hitems. cbn [negb Py.get_or and_then].
    destruct locations as [|location rest]; [contradiction|].
    cbn [Json.truthy negb format_items]. rewrite Hf. reflexivity. }
  split.
  - intros name Hfetch. now rewrite (by_name_outcome name _ Hfetch).
  - intros state Hfetch. now rewrite (by_state_outcome state _ Hfetch).
Qed.

(** X15: the search tools can raise on a payload that was fetched: a
    payload that is a number other than zero or [true] raises [TypeError],
    and a payload whose ["items"] list starts with a location that is not
    well shaped raises [AttributeError]. *)
Theorem search_tools_raise_on_malformed_payload name :
  (forall n,
     n <> 0%Z ->
     fetch http_get (LOCATION_API_BASE ++ "/search?name=" ++ name) headers'
     = inr (JInt n) ->
     snd (by_name name) = inl TypeError)
  /\ (fetch http_get (LOCATION_API_BASE ++ "/search?name=" ++ name) headers'
      = inr (JBool true) ->
      snd (by_name name) = inl TypeError)
  /\ (forall d location rest,
        fetch http_get (LOCATION_API_BASE ++ "/search?name=" ++ name) headers'
        = inr (JDict d) ->
        Json.lookup "items" d = Some (JList (location :: rest)) ->
        well_shaped location = false ->
        snd (by_name name) = inl AttributeError).
Proof.
  split; [| split].
  - intros n Hn Hf. rewrite (by_name_outcome name _ Hf).
    unfold list_locations. cbn [Json.truthy].
    apply Z.eqb_neq in Hn. now rewrite Hn.
  - intros Hf. now rewrite (by_name_outcome name _ Hf).
  - intros d location rest Hf Hitems Hbad.
    rewrite (by_name_outcome name _ Hf).
    unfold list_locations.
    destruct d as [|kv d']; [discriminate|].
    cbn [Json.truthy negb has_key and_then subscript].
    rewrite Hitems. cbn [negb Py.get_or and_then Json.truthy format_items].
    cbn [format_all].
    now rewrite (format_location_misshaped location Hbad).
Qed.

End LocationTools.

(** X14 when the API answers with two locations, named A and B: the state
    search returns the text of A, the line of three dashes, and the text of
    B. *)
Lemma search_formats_witness :
  exists a b,
    LocationManager.format_location LocationManager.no_repr
      (JDict [("locationName", JStr "A")]) = inr a
    /\ LocationManager.format_location LocationManager.no_repr
         (JDict [("locationName", JStr "B")]) = inr b
    /\ a <> b
    /\ snd (LocationManager.get_locations_by_state None
              (LocationManager.answering
                 (JDict [("items",
                          JList [JDict [("locationName", JStr "A")];
                                 JDict [("locationName", JStr "B")]])]))
              LocationManager.no_repr "MS")
       = inr (a ++ Py.nl ++ "---" ++ Py.nl ++ b).
Proof.
  destruct (search_formats_every_location None
              (LocationManager.answering
                 (JDict [("items",
                          JList [JDict [("locationName", JStr "A")];
                                 JDict [("locationName", JStr "B")]])]))
              LocationManager.no_repr
              [("items",
                JList [JDict [("locationName", JStr "A")];
                       JDict [("locationName", JStr "B")]])]
              [JDict [("locationName", JStr "A")];
               JDict [("locationName", JStr "B")]]
              eq_refl ltac:(discriminate) eq_refl)
    as (texts & Hall & _ & Hstate).
  destruct texts as [|a [|b [|c rest]]];
    try (exfalso; inversion Hall as [|? ? ? ? _ Hrest]; subst;
         inversion Hrest as [|? ? ? ? _ Hrest']; subst;
         inversion Hrest'; fail);
    try (exfalso; inversion Hall as [|? ? ? ? _ Hrest]; subst;
         inversion Hrest; fail);
    try (exfalso; inversion Hall; fail).
  exists a, b.
  inversion Hall as [|? ? ? ? Ha Hrest]; subst.
  inversion Hrest as [|? ? ? ? Hb _]; subst.
  split; [exact Ha | split; [exact Hb | split]].
  - intros ->. vm_compute in Ha, Hb. congruence.
  - exact (Hstate "MS" eq_refl).
Defined.

(** X13 when the API answers with an empty list of items. *)
Lemma search_empty_items_witness :
  snd (LocationManager.get_locations_by_state None
         (LocationManager.answering (JDict [("items", JList [])]))
         LocationManager.no_repr "MS")
  = inr "No locations found in state 'MS'.".
Proof.
  refine (proj2 (proj2 (search_tells_missing_from_empty_items None
                          (LocationManager.answering
                             (JDict [("items", JList [])]))
                          LocationManager.no_repr [("items", JList [])])
                   "MS" eq_refl)
            (JList []) eq_refl eq_refl).
Defined.

(** X15 when the API answers with the number five. *)
Lemma search_malformed_witness :
  snd (LocationManager.search_locations_by_name None
         (LocationManager.answering (JInt 5)) LocationManager.no_repr "Manheim")
  = inl LocationManager.TypeError.
Proof.
  refine (proj1 (search_tools_raise_on_malformed_payload None
                   (LocationManager.answering (JInt 5))
                   LocationManager.no_repr "Manheim")
            5%Z _ eq_refl).
  discriminate.
Defined.

(** X10 with no variable set: the client is built, and not connected. *)
Lemma constructor_witness :
  process_query Scenario.no_traceback "q"
    (Scenario.start
       (new_client (Scenario.steady_bedrock (Scenario.reply []))))
  = (Return "Not connected to server. Please connect first.",
     Scenario.start
       (new_client (Scenario.steady_bedrock (Scenario.reply [])))).
Proof.
  exact (proj2 (proj2 (proj2 (proj2 (constructor_raises_only_with_boto3
                                       Scenario.empty_environ
                                       Scenario.accepting_boto3)))
                  (new_client (Scenario.steady_bedrock (Scenario.reply [])))
                  eq_refl)
           Scenario.no_traceback "q" [] []).
Defined.
